(** * MediReminder: medication reminders and health log

    A shallow embedding of [MedicationReminderHealthLog.py].  The program is a
    Streamlit script over two SQLite tables; every page handler reads the
    tables with a SELECT and changes them with an INSERT or an UPDATE.  The
    tables are modelled as lists of rows in rowid order, a handler as a
    function from the store to the SQL writes it issues, and the writes are
    executed on the store by [exec].

    Text is modelled as [string] (a sequence of bytes): Python compares [str]
    values by code point and SQLite compares TEXT values with memcmp, and both
    orders are the lexicographic order of [String.compare] on ASCII text. *)

From Stdlib Require Import List Bool Arith ZArith Lia.
From Stdlib Require Import Ascii String.
From Stdlib Require Import Sorted Permutation.
Import ListNotations.

Open Scope string_scope.
Open Scope list_scope.

(** ** Python string operations used by the program *)

(** [s.split(sep)] for a one-character separator: never returns the empty
    list, [''.split(',')] being [['']]. *)
Fixpoint split (sep : ascii) (s : string) : list string :=
  match s with
  | EmptyString => [EmptyString]
  | String a s' =>
      if Ascii.eqb a sep then EmptyString :: split sep s'
      else match split sep s' with
           | [] => [String a EmptyString]
           | h :: t => String a h :: t
           end
  end.

(** [sep.join(l)]. *)
Definition join (sep : string) (l : list string) : string :=
  String.concat sep l.

(** The ASCII characters for which [str.isspace] holds.  White space outside
    ASCII (U+0085, U+00A0, U+2003, ...), which [str.strip] removes as well,
    is not modelled: the texts of this development are ASCII texts. *)
Definition is_space (a : ascii) : bool :=
  let n := nat_of_ascii a in
  (Nat.leb 9 n && Nat.leb n 13) || (Nat.leb 28 n && Nat.leb n 32).

Fixpoint lstrip (s : string) : string :=
  match s with
  | EmptyString => EmptyString
  | String a s' => if is_space a then lstrip s' else s
  end.

Fixpoint rstrip (s : string) : string :=
  match s with
  | EmptyString => EmptyString
  | String a s' =>
      match rstrip s' with
      | EmptyString => if is_space a then EmptyString else String a EmptyString
      | r => String a r
      end
  end.

(** [s.strip()]. *)
Definition strip (s : string) : string := lstrip (rstrip s).

(** [x in l] on a list of strings. *)
Definition mem (x : string) (l : list string) : bool :=
  existsb (String.eqb x) l.

(** Truth value of an optional string: [None] and [''] are false. *)
Definition truthy (o : option string) : bool :=
  match o with
  | Some (String _ _) => true
  | _ => false
  end.

(** No character of [s] is [sep]. *)
Fixpoint nosep (sep : ascii) (s : string) : bool :=
  match s with
  | EmptyString => true
  | String a s' => negb (Ascii.eqb a sep) && nosep sep s'
  end.

(** Helper function to parse time strings (source lines 52-55). *)
Definition parse_times (time_str : option string) : list string :=
  if negb (truthy time_str) then []
  else match time_str with
       | Some s => map strip (split "," s)
       | None => []
       end.

(** ** The two tables *)

(** A row of [medications].  [name] is NOT NULL; [end_date] is NULL when the
    form has no end date; [reminder_times] is read through [parse_times],
    which guards against NULL.  The other columns hold what the only INSERT
    of the program binds. *)
Record medication : Type := mkMedication {
  med_id : Z;
  name : string;
  dosage : string;
  frequency : string;
  start_date : string;
  end_date : option string;
  times_per_day : Z;
  reminder_times : option string
}.

(** A row of [health_log].  Both INSERTs of the program bind [date]; the
    symptom form leaves [taken_medications] NULL and the dashboard leaves
    [symptom], [severity] and [notes] NULL. *)
Record log_entry : Type := mkLog {
  log_id : Z;
  date : string;
  symptom : option string;
  severity : option Z;
  notes : option string;
  taken_medications : option string
}.

(** The database: both tables in rowid order. *)
Record store : Type := mkStore {
  medications : list medication;
  health_log : list log_entry
}.

Definition empty_store : store := mkStore [] [].

(** The writes the program issues. *)
Inductive stmt : Type :=
| InsertMedication (nm dos freq start : string) (stop : option string)
                   (per_day : Z) (reminders : string)
| InsertSymptom (d : string) (sym : string) (sev : Z) (nts : string)
| InsertTaken (d : string) (taken : string)
| UpdateTaken (taken : string) (d : string).

(** AUTOINCREMENT: one more than the largest rowid of the table (the program
    never deletes a row). *)
Definition next_id (ids : list Z) : Z :=
  fold_right Z.max 0%Z ids + 1.

Definition set_taken (taken : option string) (r : log_entry) : log_entry :=
  mkLog (log_id r) (date r) (symptom r) (severity r) (notes r) taken.

Definition exec (s : store) (q : stmt) : store :=
  match q with
  | InsertMedication nm dos freq start stop per_day reminders =>
      mkStore
        (medications s ++
           [mkMedication (next_id (map med_id (medications s)))
              nm dos freq start stop per_day (Some reminders)])
        (health_log s)
  | InsertSymptom d sym sev nts =>
      mkStore (medications s)
        (health_log s ++
           [mkLog (next_id (map log_id (health_log s)))
              d (Some sym) (Some sev) (Some nts) None])
  | InsertTaken d taken =>
      mkStore (medications s)
        (health_log s ++
           [mkLog (next_id (map log_id (health_log s)))
              d None None None (Some taken)])
  | UpdateTaken taken d =>
      mkStore (medications s)
        (map (fun r => if String.eqb (date r) d then set_taken (Some taken) r else r)
           (health_log s))
  end.

Definition run (s : store) (qs : list stmt) : store := fold_left exec qs s.

(** What a handler shows on the page; the message texts are given without
    their leading pictograms. *)
Inductive ui : Type :=
| st_error (msg : string)
| st_success (msg : string)
| st_warning (msg : string)
| st_info (msg : string)
| st_balloons
| st_rerun.

(** ** Dashboard *)

(** SQL [x BETWEEN lo AND hi] on TEXT values. *)
Definition between (x lo hi : string) : bool :=
  (lo <=? x) && (x <=? hi).

(** SQL [COALESCE(v, dflt)]. *)
Definition coalesce (v : option string) (dflt : string) : string :=
  match v with
  | Some x => x
  | None => dflt
  end.

(** [SELECT * FROM medications WHERE ? BETWEEN start_date AND
    COALESCE(end_date, ?)], both parameters bound to the same date
    (source line 63). *)
Definition listMedicationsActiveOn (s : store) (d : string) : list medication :=
  filter (fun m => between d (start_date m) (coalesce (end_date m) d))
    (medications s).

(** [SELECT taken_medications FROM health_log WHERE date = ?] followed by
    [fetchone()]: the first matching row, [None] when there is none. *)
Definition fetch_taken (s : store) (today : string) : option (option string) :=
  option_map taken_medications
    (find (fun r => String.eqb (date r) today) (health_log s)).

(** [row[0].split(";") if row and row[0] else []]. *)
Definition taken_list_of (row : option (option string)) : list string :=
  match row with
  | Some (Some l) => if truthy (Some l) then split ";" l else []
  | _ => []
  end.

(** The taken list of the day, as both dashboard readers compute it. *)
Definition taken_on (s : store) (today : string) : list string :=
  taken_list_of (fetch_taken s today).

(** The list read back from the field [";".join(l + [n])] that the handler
    writes for a taken list [l] and a name [n] (see [taken_list_written]). *)
Definition reread (l : list string) (n : string) : list string :=
  match l with
  | [] => if String.eqb n "" then [] else split ";" n
  | _ => l ++ split ";" n
  end.

(** One turn of the loop over the reminder times (source lines 82-93);
    the state is the pair of lists [pending], [taken]. *)
Definition classify_step (s : store) (today current_time nm : string)
    (acc : list string * list string) (t : string) : list string * list string :=
  let (pending, taken) := acc in
  if t <? current_time then
    let log := fetch_taken s today in
    let med_taken := taken_list_of log in
    if mem nm med_taken then (pending, taken ++ [t])
    else (pending ++ [t], taken)
  else (pending ++ [t], taken).

(** The pending and the taken reminder times of one medication. *)
Definition classify (s : store) (today current_time : string) (med : medication)
    : list string * list string :=
  fold_left (classify_step s today current_time (name med))
    (parse_times (reminder_times med)) ([], []).

(** The lines shown under the medication (source lines 95-98). *)
Definition show_classification (pt : list string * list string) : list ui :=
  let (pending, taken) := pt in
  (match pending with
   | [] => []
   | _ => [st_warning ("Pending: " ++ join ", " pending)]
   end) ++
  (match taken with
   | [] => []
   | _ => [st_success ("Taken: " ++ join ", " taken)]
   end).

(** The handler of the button "Mark ... as Taken Now" (source lines
    100-113): the writes it issues and what it shows. *)
Definition markMedicationTaken_handler (s : store) (today nm : string)
    : list stmt * list ui :=
  let row := fetch_taken s today in
  let taken_list := taken_list_of row in
  if negb (mem nm taken_list) then
    let taken_list' := taken_list ++ [nm] in
    let taken_str := join ";" taken_list' in
    ((match row with
      | Some _ => [UpdateTaken taken_str today]
      | None => [InsertTaken today nm]
      end),
     [st_success (nm ++ " marked as taken!"); st_rerun])
  else ([], []).

Definition markMedicationTaken (s : store) (today nm : string) : store :=
  run s (fst (markMedicationTaken_handler s today nm)).

(** ** Add Medication *)

(** The fields of the form; the two dates are the values [str(start_date)]
    and [str(end_date) if end_date else None]. *)
Record med_form : Type := mkForm {
  f_name : string;
  f_dosage : string;
  f_frequency : string;
  f_times_per_day : Z;
  f_reminder_input : string;
  f_start_date : string;
  f_end_date : option string
}.

(** The submit handler (source lines 133-144). *)
Definition addMedication_handler (f : med_form) : list stmt * list ui :=
  if negb (truthy (Some (f_name f))) || negb (truthy (Some (f_dosage f)))
     || negb (truthy (Some (f_reminder_input f)))
  then ([], [st_error "Please fill all required fields."])
  else ([InsertMedication (f_name f) (f_dosage f) (f_frequency f)
           (f_start_date f) (f_end_date f) (f_times_per_day f)
           (f_reminder_input f)],
        [st_success ("Medication '" ++ f_name f ++ "' added successfully!");
         st_balloons]).

Definition addMedication (s : store) (f : med_form) : store :=
  run s (fst (addMedication_handler f)).

(** ** Health Log *)

(** The submit handler of the symptom form (source lines 158-164). *)
Definition recordSymptom_handler (today sym : string) (sev : Z) (nts : string)
    : list stmt * list ui :=
  ([InsertSymptom today sym sev nts], [st_success "Health entry saved!"]).

Definition recordSymptom (s : store) (today sym : string) (sev : Z)
    (nts : string) : store :=
  run s (fst (recordSymptom_handler today sym sev nts)).

(** [ORDER BY date DESC] as a stable insertion sort: a row goes in front of
    the first row whose date is not greater than its own. *)
Fixpoint insert_desc (r : log_entry) (l : list log_entry) : list log_entry :=
  match l with
  | [] => [r]
  | r' :: l' =>
      if date r' <=? date r then r :: l
      else r' :: insert_desc r l'
  end.

Definition order_by_date_desc (l : list log_entry) : list log_entry :=
  fold_right insert_desc [] l.

(** The columns [date, symptom, severity, notes] of a row. *)
Definition log_columns (r : log_entry)
    : string * option string * option Z * option string :=
  (date r, symptom r, severity r, notes r).

(** [SELECT date, symptom, severity, notes FROM health_log ORDER BY date
    DESC LIMIT ?] (source line 168 binds the limit 10). *)
Definition listRecentHealthLogEntries (s : store) (limit : nat)
    : list (string * option string * option Z * option string) :=
  firstn limit (map log_columns (order_by_date_desc (health_log s))).

(** Descending order of date on rows. *)
Definition date_desc (a b : log_entry) : Prop := (date b <=? date a) = true.

(** The date column of a listed row. *)
Definition date_of (row : string * option string * option Z * option string)
    : string :=
  fst (fst (fst row)).

(** ** PDF report *)

(** A cell of a report table: a Python value read from a row. *)
Inductive pyval : Type :=
| PyNone
| PyStr (s : string)
| PyInt (z : Z).

Definition of_text (o : option string) : pyval :=
  match o with
  | Some x => PyStr x
  | None => PyNone
  end.

Definition of_int (o : option Z) : pyval :=
  match o with
  | Some z => PyInt z
  | None => PyNone
  end.

(** What is handed to [doc.build]; table styles are left out. *)
Inductive flowable : Type :=
| Paragraph (text style : string)
| Spacer (w h : Z)
| Table (rows : list (list pyval)).

(** [SELECT * FROM health_log WHERE date BETWEEN ? AND ?]. *)
Definition listHealthLogEntriesInRange (s : store) (start stop : string)
    : list log_entry :=
  filter (fun r => between (date r) start stop) (health_log s).

(** [SELECT name, dosage FROM medications]. *)
Definition listAllMedications (s : store) : list (string * string) :=
  map (fun m => (name m, dosage m)) (medications s).

(** [log[4] or "-"]. *)
Definition notes_or_dash (o : option string) : pyval :=
  if truthy o then of_text o else PyStr "-".

Definition med_table (meds : list (string * string)) : list (list pyval) :=
  [PyStr "Name"; PyStr "Dosage"]
    :: map (fun m => [PyStr (fst m); PyStr (snd m)]) meds.

Definition log_row (log : log_entry) : list pyval :=
  [PyStr (date log); of_text (symptom log); of_int (severity log);
   notes_or_dash (notes log)].

Definition log_table (logs : list log_entry) : list (list pyval) :=
  [PyStr "Date"; PyStr "Symptom"; PyStr "Severity"; PyStr "Notes"]
    :: map log_row logs.

(** The flowables of the report (source lines 206-240); [generated_on] is
    today's date as [strftime] prints it. *)
Definition buildReport (s : store) (start stop generated_on : string)
    : list flowable :=
  let logs := listHealthLogEntriesInRange s start stop in
  let meds := listAllMedications s in
  [Paragraph "Health & Medication Report" "Title";
   Paragraph ("Generated on: " ++ generated_on) "Normal";
   Spacer 1 12;
   Paragraph "Active Medications" "Heading2";
   Table (med_table meds);
   Spacer 1 20;
   Paragraph "Health Log Entries" "Heading2";
   Table (log_table logs)].

(** ** Reminder times as clock times *)

Definition is_digit (a : ascii) : bool :=
  (48 <=? N_of_ascii a)%N && (N_of_ascii a <=? 57)%N.

Definition digit_val (a : ascii) : N := (N_of_ascii a - 48)%N.

(** Zero-padded 24-hour ["HH:MM"], the format of [strftime("%H:%M")]. *)
Definition hhmm (t : string) : bool :=
  match t with
  | String h1 (String h2 (String sep (String m1 (String m2 EmptyString)))) =>
      is_digit h1 && is_digit h2 && Ascii.eqb sep ":"
      && is_digit m1 && is_digit m2
      && (10 * digit_val h1 + digit_val h2 <? 24)%N
      && (10 * digit_val m1 + digit_val m2 <? 60)%N
  | _ => false
  end.

(** Minutes since midnight of an ["HH:MM"] string. *)
Definition minutes_of (t : string) : N :=
  match t with
  | String h1 (String h2 (String _ (String m1 (String m2 _)))) =>
      ((10 * digit_val h1 + digit_val h2) * 60
       + (10 * digit_val m1 + digit_val m2))%N
  | _ => 0%N
  end.

(** ** Sample data *)

(** Two symptom entries saved on the same day. *)
Definition two_symptoms : store :=
  recordSymptom (recordSymptom empty_store "2024-01-05" "Headache" 6 "")
    "2024-01-05" "Fever" 3 "".

Definition amlodipine : medication :=
  mkMedication 1 "Amlodipine" "5mg" "Daily" "2024-01-01" None 2
    (Some "08:00, 20:00").

Definition amlodipine_form : med_form :=
  mkForm "Amlodipine" "5mg" "Daily" 2 "08:00, 20:00" "2024-01-01" None.

(** A form whose reminder time has no leading zero. *)
Definition unpadded_form : med_form :=
  mkForm "Amlodipine" "5mg" "Daily" 1 "9:00" "2024-01-01" None.

Definition nameless_form : med_form :=
  mkForm "" "5mg" "Daily" 2 "08:00, 20:00" "2024-01-01" None.

(** A form whose medication name holds the separator of the taken list. *)
Definition vitamin_form : med_form :=
  mkForm "Vitamin;D" "1000IU" "Daily" 2 "08:00, 20:00" "2024-01-01" None.

(** The row the program stores for [vitamin_form] in a new database. *)
Definition vitamin_d : medication :=
  mkMedication 1 "Vitamin;D" "1000IU" "Daily" "2024-01-01" None 2
    (Some "08:00, 20:00").

(** The store after a headache of severity 6 is saved with the notes left
    empty, and the row it holds. *)
Definition headache_store : store :=
  recordSymptom empty_store "2024-01-05" "Headache" 6 "".

Definition headache_row : log_entry :=
  mkLog 1 "2024-01-05" (Some "Headache") (Some 6%Z) (Some "") None.

(** The rows the program stores for [unpadded_form] in a new database, and
    for the same form with the time written "09:00". *)
Definition unpadded_med : medication :=
  mkMedication 1 "Amlodipine" "5mg" "Daily" "2024-01-01" None 1 (Some "9:00").

Definition padded_med : medication :=
  mkMedication 1 "Amlodipine" "5mg" "Daily" "2024-01-01" None 1 (Some "09:00").

(** ** Reports *)

(** [SELECT date, symptom, severity FROM health_log] (source line 180). *)
Definition seriesForReport (s : store)
    : list (string * option string * option Z) :=
  map (fun r => (date r, symptom r, severity r)) (health_log s).

(** [SELECT date, taken_medications FROM health_log WHERE taken_medications
    != ''] (source lines 190-192); NULL is not different from [''] in SQL, so
    the rows kept are those with a non-empty text. *)
Definition adherence_rows (s : store) : list (string * option string) :=
  map (fun r => (date r, taken_medications r))
    (filter (fun r => truthy (taken_medications r)) (health_log s)).

(** What the Reports page shows: the notice, or the points of the chart with
    the number printed as "days logged" when there are adherence rows. *)
Inductive reports_view : Type :=
| NoReportData
| ReportData (points : list (string * option string * option Z))
             (days_logged : option nat).

Definition reports_page (s : store) : reports_view :=
  match seriesForReport s with
  | [] => NoReportData
  | data =>
      ReportData data
        (match adherence_rows s with
         | [] => None
         | rows => Some (List.length rows)
         end)
  end.

(** ** Sessions *)

(** What a user can do that writes to the store. *)
Inductive action : Type :=
| SaveMedication (f : med_form)
| SaveSymptom (today sym : string) (sev : Z) (nts : string)
| MarkTaken (today nm : string).

Definition step (s : store) (a : action) : store :=
  match a with
  | SaveMedication f => addMedication s f
  | SaveSymptom today sym sev nts => recordSymptom s today sym sev nts
  | MarkTaken today nm => markMedicationTaken s today nm
  end.

Definition steps (s : store) (acts : list action) : store :=
  fold_left step acts s.

(** The stores the program can build from a new database.  The button
    "Mark ... as Taken Now" is drawn for the medications active today only
    (source lines 63-100). *)
Inductive reachable : store -> Prop :=
| reach_empty : reachable empty_store
| reach_add s f : reachable s -> reachable (addMedication s f)
| reach_symptom s today sym sev nts :
    reachable s -> reachable (recordSymptom s today sym sev nts)
| reach_mark s today m :
    reachable s -> In m (listMedicationsActiveOn s today) ->
    reachable (markMedicationTaken s today (name m)).

(** The names listed on one row. *)
Definition names_on (r : log_entry) : list string :=
  taken_list_of (Some (taken_medications r)).

(** Number of occurrences of a character in a text. *)
Definition count_char (c : ascii) (s : string) : nat :=
  count_occ ascii_dec (list_ascii_of_string s) c.

(** A time without a comma and without blanks around it. *)
Definition clean_time (x : string) : Prop :=
  nosep "," x = true /\ strip x = x.

(** A session: a medication is saved, two symptoms are saved on one day and
    the medication is marked as taken. *)
Definition sample_session : list action :=
  [SaveMedication amlodipine_form;
   SaveSymptom "2024-01-05" "Headache" 6 "";
   SaveSymptom "2024-01-05" "Fever" 3 "after lunch";
   MarkTaken "2024-01-05" "Amlodipine"].

Definition sample_store : store := steps empty_store sample_session.

(** * Properties *)

(** ** Splitting and joining *)

Lemma mem_In (x : string) (l : list string) : mem x l = true <-> In x l.
Proof.
  unfold mem. rewrite existsb_exists. split.
  - intros [y [Hy He]]. apply String.eqb_eq in He. now subst.
  - intros H. exists x. split; [assumption | apply String.eqb_refl].
Qed.

Lemma mem_false (x : string) (l : list string) : mem x l = false <-> ~ In x l.
Proof.
  rewrite <- mem_In. destruct (mem x l); split; congruence.
Qed.

Lemma append_empty_r (s : string) : (s ++ "")%string = s.
Proof. induction s as [|a s IH]; simpl; [reflexivity | now rewrite IH]. Qed.

Lemma append_assoc (s t u : string) :
  ((s ++ t) ++ u = s ++ t ++ u)%string.
Proof. induction s as [|a s IH]; simpl; [reflexivity | now rewrite IH]. Qed.

Section SplitJoin.

Variable c : ascii.

Lemma split_not_nil (s : string) : split c s <> [].
Proof.
  destruct s as [|a s]; simpl; [discriminate|].
  destruct (Ascii.eqb a c); [discriminate|].
  destruct (split c s); discriminate.
Qed.

Lemma split_cons_other (a : ascii) (s : string) :
  Ascii.eqb a c = false ->
  exists h t, split c s = h :: t /\ split c (String a s) = String a h :: t.
Proof.
  intros Ha. simpl. rewrite Ha.
  destruct (split c s) as [|h t] eqn:E.
  - now apply split_not_nil in E.
  - now exists h, t.
Qed.

Lemma join_cons (x : string) (l : list string) :
  l <> [] -> join (String c "") (x :: l) = (x ++ (String c "") ++ join (String c "") l)%string.
Proof. destruct l; [congruence | reflexivity]. Qed.

Lemma join_split (s : string) : join (String c "") (split c s) = s.
Proof.
  induction s as [|a s IH]; [reflexivity|].
  destruct (Ascii.eqb a c) eqn:Ha.
  - simpl. rewrite Ha. apply Ascii.eqb_eq in Ha. subst a.
    rewrite join_cons by apply split_not_nil. now rewrite IH.
  - destruct (split_cons_other a s Ha) as [h [t [E1 E2]]].
    rewrite E2. rewrite E1 in IH.
    destruct t as [|h' t].
    + simpl in *. now subst.
    + rewrite join_cons by discriminate.
      rewrite join_cons in IH by discriminate.
      rewrite <- IH. reflexivity.
Qed.

Lemma split_app (s t : string) :
  split c (s ++ (String c "") ++ t)%string = split c s ++ split c t.
Proof.
  induction s as [|a s IH].
  - simpl. now rewrite Ascii.eqb_refl.
  - change (String a s ++ (String c "") ++ t)%string with (String a (s ++ (String c "") ++ t)).
    cbn [split]. rewrite IH.
    destruct (Ascii.eqb a c); [reflexivity|].
    destruct (split c s) as [|h l] eqn:E; [now apply split_not_nil in E|].
    reflexivity.
Qed.

Lemma split_nosep (s : string) :
  Forall (fun x => nosep c x = true) (split c s).
Proof.
  induction s as [|a s IH]; simpl.
  - now constructor.
  - destruct (Ascii.eqb a c) eqn:Ha.
    + now constructor.
    + destruct (split c s) as [|h l]; inversion IH; subst;
        constructor; simpl; try rewrite Ha; auto.
Qed.

Lemma nosep_split (x : string) : nosep c x = true -> split c x = [x].
Proof.
  induction x as [|a x IH]; simpl; [reflexivity|].
  intros H. apply andb_prop in H. destruct H as [Ha Hx].
  apply negb_true_iff in Ha. rewrite Ha, (IH Hx). reflexivity.
Qed.

Lemma split_self (n : string) : In n (split c n) <-> nosep c n = true.
Proof.
  split.
  - intros H. pose proof (split_nosep n) as F.
    rewrite Forall_forall in F. now apply F.
  - intros H. rewrite (nosep_split n H). now left.
Qed.

Lemma join_snoc (l : list string) (n : string) :
  l <> [] -> join (String c "") (l ++ [n]) = (join (String c "") l ++ (String c "") ++ n)%string.
Proof.
  induction l as [|x l IH]; [congruence|]. intros _.
  destruct l as [|y l].
  - reflexivity.
  - change ((x :: y :: l) ++ [n]) with (x :: ((y :: l) ++ [n])).
    rewrite join_cons by (destruct l; discriminate).
    rewrite IH by discriminate.
    rewrite (join_cons x (y :: l)) by discriminate.
    now rewrite !append_assoc.
Qed.

Lemma split_join (l : list string) :
  l <> [] -> Forall (fun x => nosep c x = true) l ->
  split c (join (String c "") l) = l.
Proof.
  induction l as [|x l IH]; [congruence|]. intros _ F.
  inversion F as [|? ? Hx Hl]; subst.
  destruct l as [|y l].
  - simpl. now apply nosep_split.
  - rewrite join_cons by discriminate. rewrite split_app.
    rewrite IH; [| discriminate | assumption].
    now rewrite (nosep_split x Hx).
Qed.

End SplitJoin.

(** ** Reading the taken list back after a write *)

Lemma truthy_nonempty (x : string) : truthy (Some x) = true <-> x <> "".
Proof. destruct x; simpl; split; congruence. Qed.

(** A taken list is empty or comes from splitting a non-empty field. *)
Lemma taken_list_cases (row : option (option string)) :
  taken_list_of row = [] \/
  exists x, x <> "" /\ row = Some (Some x) /\ taken_list_of row = split ";" x.
Proof.
  destruct row as [[x|]|]; simpl; auto.
  destruct x as [|a x]; auto.
  right. exists (String a x). repeat split. discriminate.
Qed.

(** The list read from the field that the handler writes. *)
Lemma taken_list_written (row : option (option string)) (n : string) :
  taken_list_of (Some (Some (join ";" (taken_list_of row ++ [n])))) =
  reread (taken_list_of row) n.
Proof.
  destruct (taken_list_cases row) as [E | [x [Hx [_ E]]]]; rewrite E.
  - destruct n; reflexivity.
  - rewrite join_snoc by apply split_not_nil.
    rewrite join_split.
    assert (T : truthy (Some (x ++ ";" ++ n)%string) = true)
      by (destruct x; [congruence | reflexivity]).
    unfold taken_list_of, reread. rewrite T, split_app.
    destruct (split ";" x) eqn:S; [now apply split_not_nil in S|].
    reflexivity.
Qed.

Lemma find_update_taken (d x : string) (l : list log_entry) (r : log_entry) :
  find (fun r => String.eqb (date r) d) l = Some r ->
  find (fun r => String.eqb (date r) d)
    (map (fun r => if String.eqb (date r) d then set_taken (Some x) r else r) l)
  = Some (set_taken (Some x) r).
Proof.
  induction l as [|r' l IH]; simpl; [discriminate|].
  destruct (String.eqb (date r') d) eqn:E; simpl; rewrite E.
  - now intros [= ->].
  - exact IH.
Qed.

Lemma find_insert_taken (d : string) (l : list log_entry) (r : log_entry) :
  find (fun r => String.eqb (date r) d) l = None ->
  date r = d ->
  find (fun r => String.eqb (date r) d) (l ++ [r]) = Some r.
Proof.
  intros H <-. induction l as [|r' l IH]; simpl in *.
  - now rewrite String.eqb_refl.
  - destruct (String.eqb (date r') (date r)); [discriminate | auto].
Qed.

(** The handler's writes, by the three cases of the source. *)
Lemma mark_present (s : store) (d n : string) :
  In n (taken_on s d) ->
  markMedicationTaken_handler s d n = ([], []).
Proof.
  intros H. apply mem_In in H. unfold markMedicationTaken_handler.
  fold (taken_on s d). now rewrite H.
Qed.

Lemma mark_absent_row (s : store) (d n : string) (row : option string) :
  ~ In n (taken_on s d) -> fetch_taken s d = Some row ->
  fst (markMedicationTaken_handler s d n)
  = [UpdateTaken (join ";" (taken_on s d ++ [n])) d].
Proof.
  intros H R. apply mem_false in H. unfold markMedicationTaken_handler.
  fold (taken_on s d). now rewrite H, R.
Qed.

Lemma mark_absent_norow (s : store) (d n : string) :
  fetch_taken s d = None ->
  fst (markMedicationTaken_handler s d n) = [InsertTaken d n].
Proof.
  intros R. unfold markMedicationTaken_handler. now rewrite R.
Qed.

(** The first row of the day after the handler has run. *)
Lemma fetch_mark (s : store) (d n : string) :
  fetch_taken (markMedicationTaken s d n) d =
  if mem n (taken_on s d) then fetch_taken s d
  else Some (Some (join ";" (taken_on s d ++ [n]))).
Proof.
  unfold markMedicationTaken.
  destruct (mem n (taken_on s d)) eqn:M.
  - apply mem_In in M. now rewrite mark_present.
  - apply mem_false in M. destruct (fetch_taken s d) as [row|] eqn:R.
    + rewrite (mark_absent_row s d n row M R). simpl.
      unfold fetch_taken in *. simpl.
      destruct (find _ (health_log s)) as [r|] eqn:F; [|discriminate].
      now rewrite (find_update_taken d _ _ r F).
    + rewrite (mark_absent_norow s d n R). simpl.
      unfold taken_on. rewrite R. simpl.
      unfold fetch_taken in *. simpl.
      destruct (find _ (health_log s)) as [r|] eqn:F; [discriminate|].
      erewrite find_insert_taken; [reflexivity | exact F | reflexivity].
Qed.

Lemma taken_on_mark (s : store) (d n : string) :
  taken_on (markMedicationTaken s d n) d =
  if mem n (taken_on s d) then taken_on s d
  else reread (taken_on s d) n.
Proof.
  unfold taken_on at 1. rewrite fetch_mark.
  destruct (mem n (taken_on s d)); [reflexivity|].
  apply taken_list_written.
Qed.

Lemma count_split_self (c : ascii) (n : string) :
  count_occ string_dec (split c n) n <= 1.
Proof.
  destruct (nosep c n) eqn:E.
  - rewrite (nosep_split c n E). simpl.
    destruct (string_dec n n); [lia | congruence].
  - assert (H : ~ In n (split c n)) by (rewrite split_self; congruence).
    apply (count_occ_not_In string_dec) in H. lia.
Qed.

(** Rereading after a second write adds no new name. *)
Lemma reread_twice (l : list string) (n x : string) :
  In x (reread (reread l n) n) <-> In x (reread l n).
Proof.
  unfold reread.
  destruct (split ";" n) as [|h t] eqn:S; [now apply split_not_nil in S|].
  destruct l as [|y l]; [destruct (String.eqb n "") eqn:E|]; simpl;
    try rewrite E; simpl; repeat rewrite in_app_iff; simpl; tauto.
Qed.

Lemma reread_count (l : list string) (n : string) :
  count_occ string_dec l n = 0 ->
  count_occ string_dec (reread l n) n <= 1.
Proof.
  intros H. pose proof (count_split_self ";" n) as C. unfold reread.
  destruct l as [|y l]; [destruct (String.eqb n ""); simpl; lia|].
  rewrite count_occ_app. lia.
Qed.

(** A name without a semicolon is in the taken list once it is marked. *)
Lemma mark_In (s : store) (d n : string) :
  nosep ";" n = true -> n <> "" ->
  In n (taken_on (markMedicationTaken s d n) d).
Proof.
  intros Hs Hn. rewrite taken_on_mark.
  destruct (mem n (taken_on s d)) eqn:M; [now apply mem_In|].
  unfold reread. rewrite (nosep_split ";" n Hs).
  apply String.eqb_neq in Hn. rewrite Hn.
  destruct (taken_on s d); [now left | apply in_or_app; right; now left].
Qed.

(** For such a name the second call does not write: the whole store is the
    same after two calls as after one. *)
Lemma mark_twice_store (s : store) (d n : string) :
  nosep ";" n = true -> n <> "" ->
  markMedicationTaken (markMedicationTaken s d n) d n
  = markMedicationTaken s d n.
Proof.
  intros Hs Hn. unfold markMedicationTaken at 1.
  now rewrite (mark_present _ d n (mark_In s d n Hs Hn)).
Qed.

(** ** Marking a medication as taken *)

(** C1: marking the same medication twice for a date leaves the same set of
    taken names for that date as marking it once.  Marking a name that is
    already in the list leaves the list as it is, and a call never raises the
    number of occurrences of the name in the list above one.  For a name
    without a semicolon the second call changes nothing in the store. *)
Theorem markMedicationTaken_idempotent (s : store) (d n : string) :
  (forall x,
     In x (taken_on (markMedicationTaken (markMedicationTaken s d n) d n) d)
     <-> In x (taken_on (markMedicationTaken s d n) d))
  /\ (In n (taken_on s d) ->
      taken_on (markMedicationTaken s d n) d = taken_on s d)
  /\ count_occ string_dec (taken_on (markMedicationTaken s d n) d) n
     <= Nat.max 1 (count_occ string_dec (taken_on s d) n)
  /\ (nosep ";" n = true -> n <> "" ->
      markMedicationTaken (markMedicationTaken s d n) d n
      = markMedicationTaken s d n).
Proof.
  pose proof (taken_on_mark s d n) as E1.
  pose proof (taken_on_mark (markMedicationTaken s d n) d n) as E2.
  set (l := taken_on s d) in *.
  set (l1 := taken_on (markMedicationTaken s d n) d) in *.
  clearbody l l1.
  split; [|split; [|split]].
  - intros x. destruct (mem n l) eqn:M.
    + rewrite E2, E1, M. tauto.
    + rewrite E2. destruct (mem n l1); [tauto|].
      rewrite E1. apply reread_twice.
  - intros H. apply mem_In in H. now rewrite E1, H.
  - rewrite E1. destruct (mem n l) eqn:M; [lia|].
    apply mem_false in M. apply (count_occ_not_In string_dec) in M.
    pose proof (reread_count l n M). lia.
  - apply mark_twice_store.
Qed.

(** Witness: Amlodipine marked after it has been marked. *)
Lemma markMedicationTaken_idempotent_witness :
  let s := markMedicationTaken empty_store "2024-01-05" "Amlodipine" in
  taken_on (markMedicationTaken s "2024-01-05" "Amlodipine") "2024-01-05"
  = taken_on s "2024-01-05"
  /\ markMedicationTaken (markMedicationTaken s "2024-01-05" "Amlodipine")
       "2024-01-05" "Amlodipine"
     = markMedicationTaken s "2024-01-05" "Amlodipine".
Proof.
  intros s.
  destruct (markMedicationTaken_idempotent s "2024-01-05" "Amlodipine")
    as [_ [H1 [_ H2]]].
  split; [apply H1; simpl; tauto | apply H2; [reflexivity | discriminate]].
Defined.

(** C10: when the first row of the date already lists the name, the handler
    issues no statement and shows nothing, and the store is unchanged. *)
Theorem markMedicationTaken_present_noop (s : store) (d n : string) :
  In n (taken_on s d) ->
  markMedicationTaken_handler s d n = ([], [])
  /\ markMedicationTaken s d n = s.
Proof.
  intros H. pose proof (mark_present s d n H) as E. split; [exact E|].
  unfold markMedicationTaken. now rewrite E.
Qed.

(** Witness: Amlodipine is in the list after it has been marked once. *)
Lemma markMedicationTaken_present_noop_witness :
  let s := markMedicationTaken empty_store "2024-01-05" "Amlodipine" in
  markMedicationTaken_handler s "2024-01-05" "Amlodipine" = ([], [])
  /\ markMedicationTaken s "2024-01-05" "Amlodipine" = s.
Proof.
  intros s. apply (markMedicationTaken_present_noop s "2024-01-05" "Amlodipine").
  simpl. tauto.
Defined.

Lemma Forall2_map_same {A : Type} (R : A -> A -> Prop) (f : A -> A)
    (l : list A) :
  (forall x, R x (f x)) -> Forall2 R l (map f l).
Proof. intros H. induction l; simpl; constructor; auto. Qed.

(** C2 (as amended): when a row for the date exists, the handler changes
    nothing but [taken_medications] fields of rows of that date: the
    medications, the rows of other dates and every other field of every row
    are as before.  Each row of the date gets the first row's list with the
    name appended, unless the name is already in that list. *)
Theorem markMedicationTaken_frame (s : store) (d n : string)
    (row : option string) :
  fetch_taken s d = Some row ->
  medications (markMedicationTaken s d n) = medications s
  /\ Forall2
       (fun r r' =>
          log_id r' = log_id r /\ date r' = date r
          /\ symptom r' = symptom r /\ severity r' = severity r
          /\ notes r' = notes r
          /\ (date r <> d -> r' = r)
          /\ (date r = d ->
              taken_medications r' =
              if mem n (taken_on s d) then taken_medications r
              else Some (join ";" (taken_on s d ++ [n]))))
       (health_log s) (health_log (markMedicationTaken s d n)).
Proof.
  intros R. unfold markMedicationTaken.
  destruct (mem n (taken_on s d)) eqn:M.
  - apply mem_In in M. rewrite (mark_present s d n M). simpl.
    split; [reflexivity|].
    rewrite <- (map_id (health_log s)) at 2.
    apply Forall2_map_same. intros r. repeat split; reflexivity.
  - apply mem_false in M. rewrite (mark_absent_row s d n row M R). simpl.
    split; [reflexivity|].
    apply Forall2_map_same. intros r.
    destruct (String.eqb_spec (date r) d) as [E|E]; simpl;
      repeat split; congruence.
Qed.

(** Witness: the first of two same-day symptom rows exists. *)
Lemma markMedicationTaken_frame_witness :
  medications (markMedicationTaken two_symptoms "2024-01-05" "Amlodipine")
  = medications two_symptoms.
Proof.
  apply (markMedicationTaken_frame two_symptoms "2024-01-05" "Amlodipine" None).
  reflexivity.
Defined.

(** C2 (as stated) fails: after two symptom entries of one day, marking a
    medication also rewrites the second row, which is not the first match. *)
Lemma markMedicationTaken_rewrites_other_rows :
  ~ (forall (s : store) (d n : string) (r0 : log_entry),
       find (fun r => String.eqb (date r) d) (health_log s) = Some r0 ->
       forall r, In r (health_log s) -> r <> r0 ->
                 In r (health_log (markMedicationTaken s d n))).
Proof.
  intros H.
  specialize (H two_symptoms "2024-01-05" "Amlodipine" _ eq_refl
                (mkLog 2 "2024-01-05" (Some "Fever") (Some 3%Z) (Some "") None)).
  simpl in H.
  destruct H as [H|[H|[]]]; try discriminate; auto.
Qed.

(** ** The order on text *)

Lemma ascii_compare_refl (a : ascii) : Ascii.compare a a = Eq.
Proof. apply N.compare_refl. Qed.

Lemma string_compare_refl (x : string) : String.compare x x = Eq.
Proof.
  induction x as [|a x IH]; simpl; [reflexivity|].
  now rewrite ascii_compare_refl.
Qed.

Lemma string_leb_refl (x : string) : (x <=? x) = true.
Proof. unfold String.leb. now rewrite string_compare_refl. Qed.

Lemma ascii_compare_lt_trans (a b c : ascii) :
  Ascii.compare a b = Lt -> Ascii.compare b c = Lt -> Ascii.compare a c = Lt.
Proof.
  unfold Ascii.compare. rewrite !N.compare_lt_iff. lia.
Qed.

Lemma string_compare_lt_trans (x y z : string) :
  String.compare x y = Lt -> String.compare y z = Lt ->
  String.compare x z = Lt.
Proof.
  revert y z. induction x as [|a x IH]; intros [|b y] [|c z]; simpl;
    try congruence.
  destruct (Ascii.compare a b) eqn:Eab; try discriminate;
    destruct (Ascii.compare b c) eqn:Ebc; try discriminate; intros H1 H2.
  - apply Ascii.compare_eq_iff in Eab, Ebc. subst.
    rewrite ascii_compare_refl. eauto.
  - apply Ascii.compare_eq_iff in Eab. subst. now rewrite Ebc.
  - apply Ascii.compare_eq_iff in Ebc. subst. now rewrite Eab.
  - now rewrite (ascii_compare_lt_trans a b c Eab Ebc).
Qed.

Lemma string_leb_trans (x y z : string) :
  (x <=? y) = true -> (y <=? z) = true -> (x <=? z) = true.
Proof.
  unfold String.leb.
  destruct (String.compare x y) eqn:Exy; try discriminate;
    destruct (String.compare y z) eqn:Eyz; try discriminate; intros _ _.
  - apply String.compare_eq_iff in Exy, Eyz. subst.
    now rewrite string_compare_refl.
  - apply String.compare_eq_iff in Exy. subst. now rewrite Eyz.
  - apply String.compare_eq_iff in Eyz. subst. now rewrite Exy.
  - now rewrite (string_compare_lt_trans x y z Exy Eyz).
Qed.

Lemma string_leb_false (x y : string) :
  (x <=? y) = false -> (y <=? x) = true.
Proof.
  intros H. destruct (String.leb_total x y); congruence.
Qed.

(** ** Active medications *)

(** C3: a medication is listed as active on a date exactly when it is in the
    table, its start date is not after the date and its end date is absent or
    not before the date; the listing keeps the table's order. *)
Theorem listMedicationsActiveOn_spec (s : store) (d : string) (m : medication) :
  In m (listMedicationsActiveOn s d) <->
  In m (medications s)
  /\ (start_date m <=? d) = true
  /\ (end_date m = None \/ exists e, end_date m = Some e /\ (d <=? e) = true).
Proof.
  unfold listMedicationsActiveOn, between, coalesce.
  rewrite filter_In, andb_true_iff.
  destruct (end_date m) as [e|].
  - split.
    + intros [Hm [Hs He]]. repeat split; auto. right. now exists e.
    + intros [Hm [Hs [Hn | [e' [[= <-] He]]]]]; [discriminate | auto].
  - rewrite string_leb_refl. intuition.
Qed.

(** ** Pending and taken reminder times *)

Lemma classify_step_eq (s : store) (today now nm : string)
    (p k : list string) (t : string) :
  classify_step s today now nm (p, k) t =
  if (t <? now) && mem nm (taken_on s today) then (p, k ++ [t])
  else (p ++ [t], k).
Proof.
  unfold classify_step. fold (taken_on s today).
  destruct (t <? now); [destruct (mem nm (taken_on s today))|]; reflexivity.
Qed.

Lemma classify_fold (s : store) (today now nm : string) (l p k : list string) :
  fold_left (classify_step s today now nm) l (p, k) =
  (p ++ filter (fun t => negb ((t <? now) && mem nm (taken_on s today))) l,
   k ++ filter (fun t => (t <? now) && mem nm (taken_on s today)) l).
Proof.
  revert p k. induction l as [|t l IH]; intros p k.
  - simpl. now rewrite !app_nil_r.
  - cbn [fold_left filter]. rewrite classify_step_eq.
    destruct ((t <? now) && mem nm (taken_on s today)); cbn [negb];
      rewrite IH, <- ?app_assoc; reflexivity.
Qed.

Lemma classify_filter (s : store) (today now : string) (med : medication) :
  classify s today now med =
  (filter (fun t => negb ((t <? now) && mem (name med) (taken_on s today)))
     (parse_times (reminder_times med)),
   filter (fun t => (t <? now) && mem (name med) (taken_on s today))
     (parse_times (reminder_times med))).
Proof. unfold classify. now rewrite classify_fold. Qed.

(** C4 (as amended): a reminder time goes to the taken list when it is
    strictly before the current time and the medication's name is in the
    day's taken list, and to the pending list otherwise, so a time at or
    after the current time is always pending; both lists keep the order of
    the reminder times.  At "12:00" with reminder times 08:00 and 20:00, both
    are pending while the medication is not recorded as taken; once a
    medication whose name is not empty and has no semicolon is marked, 08:00
    is taken and 20:00 is pending. *)
Theorem classify_spec (s : store) (today now : string) (med : medication) :
  let S := taken_on s today in
  let times := parse_times (reminder_times med) in
  let due_taken := fun t => (t <? now) && mem (name med) S in
  classify s today now med
  = (filter (fun t => negb (due_taken t)) times, filter due_taken times)
  /\ (forall t, In t (snd (classify s today now med)) <->
                In t times /\ (t <? now) = true /\ In (name med) S)
  /\ (forall t, In t (fst (classify s today now med)) <->
                In t times /\ ((t <? now) = false \/ ~ In (name med) S))
  /\ (times = ["08:00"; "20:00"] ->
      (~ In (name med) S ->
       classify s today "12:00" med = (["08:00"; "20:00"], []))
      /\ (nosep ";" (name med) = true -> name med <> "" ->
          classify (markMedicationTaken s today (name med)) today "12:00" med
          = (["20:00"], ["08:00"]))).
Proof.
  intros S times due_taken.
  rewrite (classify_filter s today now med). fold S times due_taken.
  split; [reflexivity|]. cbn [fst snd].
  split; [|split].
  - intros t. rewrite filter_In. unfold due_taken.
    rewrite andb_true_iff, mem_In. tauto.
  - intros t. rewrite filter_In. unfold due_taken.
    rewrite negb_true_iff, andb_false_iff, mem_false. tauto.
  - intros T. split.
    + intros H. apply mem_false in H.
      rewrite classify_filter. fold S times. rewrite T, H. reflexivity.
    + intros Hs Hn. apply (mark_In s today _ Hs) in Hn. apply mem_In in Hn.
      rewrite classify_filter. fold times. rewrite T, Hn. reflexivity.
Qed.

(** Witness: Amlodipine at noon, before and after it is marked. *)
Lemma classify_spec_witness :
  classify empty_store "2024-01-05" "12:00" amlodipine
  = (["08:00"; "20:00"], [])
  /\ classify (markMedicationTaken empty_store "2024-01-05" "Amlodipine")
       "2024-01-05" "12:00" amlodipine
     = (["20:00"], ["08:00"]).
Proof.
  destruct (classify_spec empty_store "2024-01-05" "12:00" amlodipine)
    as [_ [_ [_ H]]].
  destruct (H eq_refl) as [H1 H2]. split.
  - apply H1. simpl. tauto.
  - apply H2; [reflexivity | discriminate].
Defined.

(** C4 (as stated) fails: the form accepts the name "Vitamin;D"; marking
    stores it whole, reading splits it at the semicolon, the name is not
    found among the pieces, and at "12:00" the time 08:00 stays pending. *)
Lemma classify_semicolon_name_pending :
  ~ (forall (s : store) (today : string) (med : medication),
       reachable s -> In med (listMedicationsActiveOn s today) ->
       parse_times (reminder_times med) = ["08:00"; "20:00"] ->
       In "08:00"
         (snd (classify (markMedicationTaken s today (name med)) today
                 "12:00" med))).
Proof.
  intros H.
  assert (R : reachable (addMedication empty_store vitamin_form))
    by apply reach_add, reach_empty.
  specialize (H (addMedication empty_store vitamin_form) "2024-01-05"
                vitamin_d R).
  apply H; [now left | reflexivity].
Qed.

(** ** Adding a medication *)

Lemma addMedication_saved (s : store) (f : med_form) :
  f_name f <> "" -> f_dosage f <> "" -> f_reminder_input f <> "" ->
  medications (addMedication s f)
  = medications s ++
      [mkMedication (next_id (map med_id (medications s)))
         (f_name f) (f_dosage f) (f_frequency f) (f_start_date f)
         (f_end_date f) (f_times_per_day f) (Some (f_reminder_input f))]
  /\ health_log (addMedication s f) = health_log s.
Proof.
  intros Hn Hd Hr. unfold addMedication, addMedication_handler.
  apply truthy_nonempty in Hn, Hd, Hr. rewrite Hn, Hd, Hr. simpl. auto.
Qed.

Lemma strip_leading_space (x : string) :
  strip (String " " x) = strip x.
Proof.
  unfold strip. cbn [rstrip].
  destruct (rstrip x) as [|a r]; reflexivity.
Qed.

Lemma split_leading_space (x : string) :
  map strip (split "," (String " " x)) = map strip (split "," x).
Proof.
  cbn [split]. change (Ascii.eqb " " ",") with false. cbv iota.
  destruct (split "," x) as [|h t] eqn:E; [now apply split_not_nil in E|].
  cbn [map]. now rewrite strip_leading_space.
Qed.

(** Times without commas and without blanks around them are read back from
    their joined text as they were. *)
Lemma split_join_times (l : list string) :
  l <> [] ->
  Forall (fun x => nosep "," x = true /\ strip x = x) l ->
  map strip (split "," (join ", " l)) = l.
Proof.
  induction l as [|x l IH]; [congruence|]. intros _ F.
  inversion F as [|? ? [Hx Sx] Fl]; subst.
  destruct l as [|y l].
  - cbn [join String.concat]. rewrite (nosep_split "," x Hx). cbn [map].
    now rewrite Sx.
  - change (join ", " (x :: y :: l))
      with (x ++ "," ++ String " " (join ", " (y :: l)))%string.
    rewrite split_app, map_app, (nosep_split "," x Hx), split_leading_space.
    rewrite IH by (discriminate || assumption).
    cbn [map app]. now rewrite Sx.
Qed.

Lemma parse_times_join (l : list string) :
  l <> [] -> join ", " l <> "" ->
  Forall (fun x => nosep "," x = true /\ strip x = x) l ->
  parse_times (Some (join ", " l)) = l.
Proof.
  intros Hl Hj F. unfold parse_times.
  apply truthy_nonempty in Hj. rewrite Hj. cbn [negb].
  now apply split_join_times.
Qed.

(** C5: the reminder times "08:00, 20:00" of a saved medication are stored as
    typed, are read back as the list 08:00, 20:00, and joining that list as
    the dashboard prints it gives the stored text again. *)
Theorem reminder_times_round_trip (s : store) (f : med_form) :
  f_name f <> "" -> f_dosage f <> "" ->
  f_reminder_input f = "08:00, 20:00" ->
  exists m,
    medications (addMedication s f) = medications s ++ [m]
    /\ reminder_times m = Some "08:00, 20:00"
    /\ parse_times (reminder_times m) = ["08:00"; "20:00"]
    /\ Some (join ", " (parse_times (reminder_times m))) = reminder_times m.
Proof.
  intros Hn Hd Hr.
  destruct (addMedication_saved s f Hn Hd) as [E _];
    [rewrite Hr; discriminate|].
  rewrite Hr in E. eexists. split; [exact E|]. simpl. auto.
Qed.

(** Witness: the Amlodipine form saved into an empty store. *)
Lemma reminder_times_round_trip_witness :
  exists m,
    medications (addMedication empty_store amlodipine_form) = [] ++ [m]
    /\ reminder_times m = Some "08:00, 20:00"
    /\ parse_times (reminder_times m) = ["08:00"; "20:00"]
    /\ Some (join ", " (parse_times (reminder_times m))) = reminder_times m.
Proof.
  apply (reminder_times_round_trip empty_store amlodipine_form);
    [discriminate | discriminate | reflexivity].
Defined.

(** C6: a submission with an empty name shows the error message, issues no
    statement and leaves the store, hence the medications, unchanged. *)
Theorem addMedication_empty_name (s : store) (f : med_form) :
  f_name f = "" ->
  addMedication_handler f = ([], [st_error "Please fill all required fields."])
  /\ addMedication s f = s
  /\ medications (addMedication s f) = medications s.
Proof.
  intros H. unfold addMedication, addMedication_handler. rewrite H. simpl.
  auto.
Qed.

(** Witness: the form without a name, submitted on two saved symptoms. *)
Lemma addMedication_empty_name_witness :
  addMedication_handler nameless_form
  = ([], [st_error "Please fill all required fields."])
  /\ addMedication two_symptoms nameless_form = two_symptoms
  /\ medications (addMedication two_symptoms nameless_form)
     = medications two_symptoms.
Proof.
  apply (addMedication_empty_name two_symptoms nameless_form). reflexivity.
Defined.

(** ** Recent health entries *)

Section SortedLists.

Context {A : Type} (R : A -> A -> Prop).

Lemma StronglySorted_firstn (n : nat) (l : list A) :
  StronglySorted R l -> StronglySorted R (firstn n l).
Proof.
  intros H. revert n. induction H as [|a l Hl IH Ha]; intros [|n]; simpl;
    try constructor; auto.
  rewrite Forall_forall in *. intros x Hx. apply Ha.
  rewrite <- (firstn_skipn n l). apply in_or_app. now left.
Qed.

Lemma StronglySorted_cross (l1 l2 : list A) :
  StronglySorted R (l1 ++ l2) ->
  forall a b, In a l1 -> In b l2 -> R a b.
Proof.
  induction l1 as [|x l1 IH]; simpl; intros H a b Ha Hb; [contradiction|].
  inversion H as [|? ? Hs Hx]; subst. destruct Ha as [<-|Ha].
  - rewrite Forall_forall in Hx. apply Hx, in_or_app. now right.
  - now apply IH.
Qed.

End SortedLists.

Lemma insert_desc_perm (r : log_entry) (l : list log_entry) :
  Permutation (r :: l) (insert_desc r l).
Proof.
  induction l as [|r' l IH]; simpl; [reflexivity|].
  destruct (date r' <=? date r); [reflexivity|].
  rewrite perm_swap. now apply perm_skip.
Qed.

Lemma order_by_date_desc_perm (l : list log_entry) :
  Permutation l (order_by_date_desc l).
Proof.
  induction l as [|r l IH]; simpl; [constructor|].
  rewrite <- insert_desc_perm. now apply perm_skip.
Qed.

Lemma insert_desc_sorted (r : log_entry) (l : list log_entry) :
  StronglySorted date_desc l -> StronglySorted date_desc (insert_desc r l).
Proof.
  intros H. induction H as [|r' l Hl IH Hr']; simpl.
  - repeat constructor.
  - destruct (date r' <=? date r) eqn:E.
    + constructor; [now constructor|].
      constructor; [exact E|].
      rewrite Forall_forall in *. intros x Hx. unfold date_desc in *.
      eapply string_leb_trans; [now apply Hr' | exact E].
    + constructor; [exact IH|].
      rewrite Forall_forall in *. intros x Hx.
      apply (Permutation_in _ (Permutation_sym (insert_desc_perm r l))) in Hx.
      destruct Hx as [<-|Hx]; [now apply string_leb_false | now apply Hr'].
Qed.

Lemma order_by_date_desc_sorted (l : list log_entry) :
  StronglySorted date_desc (order_by_date_desc l).
Proof.
  induction l as [|r l IH]; simpl; [constructor | now apply insert_desc_sorted].
Qed.

Lemma log_columns_sorted (l : list log_entry) :
  StronglySorted date_desc l ->
  StronglySorted (fun a b => (date_of b <=? date_of a) = true)
    (map log_columns l).
Proof.
  intros H. induction H as [|r l Hl IH Hr]; simpl; constructor; auto.
  rewrite Forall_forall in *. intros x Hx. apply in_map_iff in Hx.
  destruct Hx as [r' [<- Hr']]. now apply Hr.
Qed.

(** C7: the listing with limit 10 has at most ten rows and is in descending
    order of date; its rows are rows of the table, and no row left out has a
    later date than a listed one. *)
Theorem listRecentHealthLogEntries_spec (s : store) :
  List.length (listRecentHealthLogEntries s 10) <= 10
  /\ StronglySorted (fun a b => (date_of b <=? date_of a) = true)
       (listRecentHealthLogEntries s 10)
  /\ exists rest,
       Permutation (listRecentHealthLogEntries s 10 ++ rest)
         (map log_columns (health_log s))
       /\ forall a b, In a (listRecentHealthLogEntries s 10) -> In b rest ->
                      (date_of b <=? date_of a) = true.
Proof.
  unfold listRecentHealthLogEntries.
  pose proof (log_columns_sorted _ (order_by_date_desc_sorted (health_log s)))
    as S.
  set (rows := map log_columns (order_by_date_desc (health_log s))) in *.
  split; [apply firstn_le_length|].
  split; [now apply StronglySorted_firstn|].
  exists (skipn 10 rows). rewrite firstn_skipn. split.
  - apply Permutation_map, Permutation_sym, order_by_date_desc_perm.
  - rewrite <- (firstn_skipn 10 rows) in S.
    exact (StronglySorted_cross _ _ _ S).
Qed.

(** ** The report *)

Lemma listHealthLogEntriesInRange_In (s : store) (start stop : string)
    (r : log_entry) :
  In r (listHealthLogEntriesInRange s start stop) <->
  In r (health_log s)
  /\ (start <=? date r) = true /\ (date r <=? stop) = true.
Proof.
  unfold listHealthLogEntriesInRange, between.
  now rewrite filter_In, andb_true_iff.
Qed.

(** C8: the medication table of the report has one row for every medication
    of the store, whatever its dates, and the log table one row for every
    log row whose date is between the two bounds, both included, and for no
    other; notes that are absent, as NULL or as the empty text that the
    symptom form stores, are printed as "-", other notes as they are.  When
    the range holds the single row 2024-01-05, Headache, 6 without notes,
    the log table has the single data row 2024-01-05, Headache, 6, "-"; so
    it has after that symptom is saved with the notes left empty, when the
    range held no row before. *)
Theorem buildReport_spec (s : store) (start stop generated_on : string) :
  (exists title generated,
     buildReport s start stop generated_on =
     [title; generated; Spacer 1 12;
      Paragraph "Active Medications" "Heading2";
      Table ([PyStr "Name"; PyStr "Dosage"]
               :: map (fun m => [PyStr (name m); PyStr (dosage m)])
                    (medications s));
      Spacer 1 20;
      Paragraph "Health Log Entries" "Heading2";
      Table ([PyStr "Date"; PyStr "Symptom"; PyStr "Severity"; PyStr "Notes"]
               :: map log_row
                    (filter (fun r => (start <=? date r) && (date r <=? stop))
                       (health_log s)))])
  /\ (forall r, In r (listHealthLogEntriesInRange s start stop) <->
                In r (health_log s)
                /\ (start <=? date r) = true /\ (date r <=? stop) = true)
  /\ (forall r, notes r = None \/ notes r = Some "" ->
                nth_error (log_row r) 3 = Some (PyStr "-"))
  /\ (forall r x, notes r = Some x -> x <> "" ->
                  nth_error (log_row r) 3 = Some (PyStr x))
  /\ (forall r,
        listHealthLogEntriesInRange s start stop = [r] ->
        date r = "2024-01-05" -> symptom r = Some "Headache" ->
        severity r = Some 6%Z -> notes r = None \/ notes r = Some "" ->
        nth_error (buildReport s start stop generated_on) 7 =
        Some (Table
                [[PyStr "Date"; PyStr "Symptom"; PyStr "Severity"; PyStr "Notes"];
                 [PyStr "2024-01-05"; PyStr "Headache"; PyInt 6; PyStr "-"]]))
  /\ (listHealthLogEntriesInRange s start stop = [] ->
      between "2024-01-05" start stop = true ->
      nth_error
        (buildReport (recordSymptom s "2024-01-05" "Headache" 6 "")
           start stop generated_on) 7 =
      Some (Table
              [[PyStr "Date"; PyStr "Symptom"; PyStr "Severity"; PyStr "Notes"];
               [PyStr "2024-01-05"; PyStr "Headache"; PyInt 6; PyStr "-"]])).
Proof.
  split; [|split; [|split; [|split; [|split]]]].
  - do 2 eexists. unfold buildReport, med_table, log_table, listAllMedications.
    rewrite map_map. reflexivity.
  - apply listHealthLogEntriesInRange_In.
  - intros r [H|H]; unfold log_row, notes_or_dash; now rewrite H.
  - intros r x H Hx. unfold log_row, notes_or_dash. rewrite H.
    apply truthy_nonempty in Hx. now rewrite Hx.
  - intros r E Hd Hs Hv Hn. unfold buildReport. rewrite E.
    unfold log_table, log_row, notes_or_dash. cbn [map nth_error].
    rewrite Hd, Hs, Hv. now destruct Hn as [-> | ->].
  - intros E B. unfold buildReport. cbn [nth_error].
    unfold listHealthLogEntriesInRange in *. unfold recordSymptom. simpl run.
    cbn [health_log]. rewrite filter_app, E. cbn [filter date app].
    now rewrite B.
Qed.

(** Witness: the headache saved with empty notes into a new database. *)
Lemma buildReport_spec_witness :
  nth_error (buildReport headache_store "2024-01-01" "2024-01-31" "2024-02-01") 7
  = Some (Table
            [[PyStr "Date"; PyStr "Symptom"; PyStr "Severity"; PyStr "Notes"];
             [PyStr "2024-01-05"; PyStr "Headache"; PyInt 6; PyStr "-"]]).
Proof.
  destruct (buildReport_spec headache_store "2024-01-01" "2024-01-31"
              "2024-02-01") as [_ [_ [_ [_ [H _]]]]].
  apply (H headache_row); try reflexivity. now right.
Defined.

(** ** Reminder times and the clock *)

Lemma is_digit_bounds (a : ascii) :
  is_digit a = true -> (48 <= N_of_ascii a <= 57)%N.
Proof.
  unfold is_digit. rewrite andb_true_iff, !N.leb_le. tauto.
Qed.

(** On zero-padded 24-hour strings the order on text is the order of the
    clock. *)
Lemma hhmm_ltb (t now : string) :
  hhmm t = true -> hhmm now = true ->
  (t <? now) = (minutes_of t <? minutes_of now)%N.
Proof.
  destruct t as [|a1 [|a2 [|a3 [|a4 [|a5 [|a6 t]]]]]]; try discriminate.
  destruct now as [|b1 [|b2 [|b3 [|b4 [|b5 [|b6 u]]]]]]; try discriminate.
  unfold hhmm. rewrite !andb_true_iff, !N.ltb_lt.
  intros [[[[[[A1 A2] A3] A4] A5] HA] MA] [[[[[[B1 B2] B3] B4] B5] HB] MB].
  apply Ascii.eqb_eq in A3, B3. subst a3 b3.
  apply is_digit_bounds in A1, A2, A4, A5, B1, B2, B4, B5.
  unfold String.ltb, minutes_of, digit_val in *. cbn [String.compare].
  rewrite ascii_compare_refl. unfold Ascii.compare.
  destruct (N.compare_spec (N_of_ascii a1) (N_of_ascii b1));
    destruct (N.compare_spec (N_of_ascii a2) (N_of_ascii b2));
    destruct (N.compare_spec (N_of_ascii a4) (N_of_ascii b4));
    destruct (N.compare_spec (N_of_ascii a5) (N_of_ascii b5));
    symmetry; try (apply N.ltb_lt; lia); apply N.ltb_ge; lia.
Qed.

(** C9 (as amended): nothing checks or rewrites the reminder times.  A form
    with its required fields filled is saved with the reminder text as
    typed; reading gives the comma-separated pieces with the blanks around
    them removed, and the evaluator compares each piece, as it is, with the
    current time in the order on text.  When a piece and the current time
    are zero-padded 24-hour "HH:MM", that comparison is the comparison of
    the two clock times. *)
Theorem reminder_times_as_typed (s : store) (f : med_form) :
  f_name f <> "" -> f_dosage f <> "" -> f_reminder_input f <> "" ->
  let pieces := map strip (split "," (f_reminder_input f)) in
  exists m,
    medications (addMedication s f) = medications s ++ [m]
    /\ name m = f_name f
    /\ reminder_times m = Some (f_reminder_input f)
    /\ parse_times (reminder_times m) = pieces
    /\ (forall s' today now,
          classify s' today now m
          = (filter (fun t => negb ((t <? now)
                                    && mem (f_name f) (taken_on s' today)))
               pieces,
             filter (fun t => (t <? now) && mem (f_name f) (taken_on s' today))
               pieces))
    /\ (forall s' today now t,
          hhmm t = true -> hhmm now = true ->
          (In t (snd (classify s' today now m)) <->
           In t pieces /\ (minutes_of t < minutes_of now)%N
           /\ In (f_name f) (taken_on s' today)))
    /\ (forall t now, hhmm t = true -> hhmm now = true ->
                      (t <? now) = (minutes_of t <? minutes_of now)%N).
Proof.
  intros Hn Hd Hr pieces.
  destruct (addMedication_saved s f Hn Hd Hr) as [E _].
  eexists. split; [exact E|]. split; [reflexivity|]. split; [reflexivity|].
  assert (P : parse_times (Some (f_reminder_input f)) = pieces).
  { unfold parse_times. apply truthy_nonempty in Hr. now rewrite Hr. }
  cbn [reminder_times name]. split; [exact P|].
  split; [|split].
  - intros s' today now. rewrite classify_filter.
    cbn [reminder_times name]. now rewrite P.
  - intros s' today now t Ht Hnow. rewrite classify_filter.
    cbn [reminder_times name snd]. rewrite P, filter_In, andb_true_iff.
    rewrite (hhmm_ltb t now Ht Hnow), N.ltb_lt, mem_In. tauto.
  - apply hhmm_ltb.
Qed.

(** Witness: the form with the reminder time "9:00". *)
Lemma reminder_times_as_typed_witness :
  exists m,
    medications (addMedication empty_store unpadded_form) = [] ++ [m]
    /\ name m = "Amlodipine"
    /\ reminder_times m = Some "9:00"
    /\ parse_times (reminder_times m) = ["9:00"].
Proof.
  destruct (reminder_times_as_typed empty_store unpadded_form)
    as [m [H1 [H2 [H3 [H4 _]]]]]; try discriminate.
  exists m. repeat split; assumption.
Defined.

(** C9 (as stated) fails: the reminder time "9:00" is saved, is among the
    times the evaluator classifies, and is compared as it is: at "10:00",
    with the medication marked as taken, "9:00" is pending as not yet due,
    where "09:00" is taken. *)
Lemma unpadded_time_compared_as_typed :
  ~ (forall (s : store) (f : med_form) (today now : string) (m : medication)
            (t : string),
       In m (medications (addMedication s f)) ->
       In t (fst (classify (addMedication s f) today now m)
             ++ snd (classify (addMedication s f) today now m)) ->
       hhmm t = true)
  /\ (let s := markMedicationTaken (addMedication empty_store unpadded_form)
                 "2024-01-05" "Amlodipine" in
      medications s = [unpadded_med]
      /\ In "Amlodipine" (taken_on s "2024-01-05")
      /\ classify s "2024-01-05" "10:00" unpadded_med = (["9:00"], [])
      /\ classify s "2024-01-05" "10:00" padded_med = ([], ["09:00"])).
Proof.
  split.
  - intros H.
    specialize (H empty_store unpadded_form "2024-01-05" "10:00" unpadded_med
                  "9:00").
    assert (F : hhmm "9:00" = true); [|discriminate F].
    apply H; simpl; auto.
  - repeat split. simpl. now left.
Qed.

(** The unpadded time is compared as text: at "10:00", with the medication
    marked as taken, "9:00" still counts as not yet due. *)
Example unpadded_time_misordered :
  let s := addMedication empty_store unpadded_form in
  let s' := markMedicationTaken s "2024-01-05" "Amlodipine" in
  map (classify s' "2024-01-05" "10:00") (medications s')
  = [(["9:00"], [])].
Proof. reflexivity. Qed.

(** A name with a semicolon is split when the list is read, so the stored
    text grows with every call although the set of names stays the same. *)
Example mark_twice_semicolon :
  let s1 := markMedicationTaken empty_store "2024-01-05" "Vitamin;D" in
  let s2 := markMedicationTaken s1 "2024-01-05" "Vitamin;D" in
  map taken_medications (health_log s1) = [Some "Vitamin;D"]
  /\ map taken_medications (health_log s2) = [Some "Vitamin;D;Vitamin;D"]
  /\ taken_on s2 "2024-01-05" = ["Vitamin"; "D"; "Vitamin"; "D"].
Proof. repeat split. Qed.

(** * Further properties of the handlers *)

(** ** The taken list under the other writes *)

Lemma find_app_first {A : Type} (f : A -> bool) (l l' : list A) :
  find f (l ++ l') =
  match find f l with
  | Some x => Some x
  | None => find f l'
  end.
Proof.
  induction l as [|x l IH]; simpl; [reflexivity|].
  now destruct (f x).
Qed.

Lemma find_update_other (d d' x : string) (l : list log_entry) :
  d <> d' ->
  find (fun r => String.eqb (date r) d)
    (map (fun r => if String.eqb (date r) d' then set_taken (Some x) r else r) l)
  = find (fun r => String.eqb (date r) d) l.
Proof.
  intros N. induction l as [|r l IH]; simpl; [reflexivity|].
  destruct (String.eqb_spec (date r) d') as [E'|E']; simpl.
  - destruct (String.eqb_spec (date r) d) as [E|E]; [congruence | exact IH].
  - now rewrite IH.
Qed.

Lemma taken_on_recordSymptom (s : store) (d today sym : string) (sev : Z)
    (nts : string) :
  taken_on (recordSymptom s today sym sev nts) d = taken_on s d.
Proof.
  unfold taken_on, fetch_taken, recordSymptom. simpl.
  rewrite find_app_first.
  destruct (find _ (health_log s)); [reflexivity|]. simpl.
  now destruct (String.eqb today d).
Qed.

Lemma addMedication_cases (s : store) (f : med_form) :
  (f_name f <> "" /\ f_dosage f <> "" /\ f_reminder_input f <> ""
   /\ fst (addMedication_handler f)
      = [InsertMedication (f_name f) (f_dosage f) (f_frequency f)
           (f_start_date f) (f_end_date f) (f_times_per_day f)
           (f_reminder_input f)])
  \/ (fst (addMedication_handler f) = [] /\ addMedication s f = s).
Proof.
  unfold addMedication, addMedication_handler.
  destruct (f_name f); [now right|].
  destruct (f_dosage f); [now right|].
  destruct (f_reminder_input f); [now right|].
  left. repeat split; discriminate.
Qed.

Lemma health_log_addMedication (s : store) (f : med_form) :
  health_log (addMedication s f) = health_log s.
Proof.
  destruct (addMedication_cases s f) as [[_ [_ [_ E]]] | [_ E]].
  - unfold addMedication. now rewrite E.
  - now rewrite E.
Qed.

Lemma fetch_mark_other (s : store) (d d' n : string) :
  d <> d' ->
  fetch_taken (markMedicationTaken s d' n) d = fetch_taken s d.
Proof.
  intros N. unfold markMedicationTaken.
  destruct (mem n (taken_on s d')) eqn:M.
  - apply mem_In in M. now rewrite mark_present.
  - apply mem_false in M. destruct (fetch_taken s d') as [row|] eqn:R.
    + rewrite (mark_absent_row s d' n row M R). unfold fetch_taken. simpl.
      now rewrite find_update_other.
    + rewrite (mark_absent_norow s d' n R). unfold fetch_taken. simpl.
      rewrite find_app_first. destruct (find _ (health_log s)); [reflexivity|].
      simpl. destruct (String.eqb_spec d' d); [congruence | reflexivity].
Qed.

Lemma classify_taken_on (s s' : store) (today now : string) (med : medication) :
  mem (name med) (taken_on s' today) = mem (name med) (taken_on s today) ->
  classify s' today now med = classify s today now med.
Proof.
  intros E. rewrite !classify_filter. now rewrite E.
Qed.

Lemma In_reread (l : list string) (n x : string) :
  In x l -> In x (reread l n).
Proof.
  unfold reread. destruct l as [|y l]; [contradiction|].
  intros H. apply in_or_app. now left.
Qed.

Lemma taken_on_step (s : store) (a : action) (d x : string) :
  In x (taken_on s d) -> In x (taken_on (step s a) d).
Proof.
  intros H. destruct a as [f | today sym sev nts | today nm]; simpl.
  - unfold taken_on, fetch_taken in *. now rewrite health_log_addMedication.
  - now rewrite taken_on_recordSymptom.
  - destruct (String.eqb_spec d today) as [<-|N].
    + rewrite taken_on_mark. destruct (mem nm (taken_on s d)); [exact H|].
      now apply In_reread.
    + unfold taken_on in *. now rewrite fetch_mark_other.
Qed.

(** X1: a name in the taken list of a date stays in it, whatever is saved
    or marked afterwards. *)
Theorem taken_on_steps (s : store) (acts : list action) (d x : string) :
  In x (taken_on s d) -> In x (taken_on (steps s acts) d).
Proof.
  revert s. induction acts as [|a acts IH]; intros s H; [exact H|].
  simpl. apply IH. now apply taken_on_step.
Qed.

(** Witness: Amlodipine stays marked through a later symptom and a later
    mark of another day. *)
Lemma taken_on_steps_witness :
  In "Amlodipine"
    (taken_on (steps sample_store
                 [SaveSymptom "2024-01-05" "Nausea" 2 "";
                  MarkTaken "2024-01-06" "Amlodipine"])
       "2024-01-05").
Proof.
  apply (taken_on_steps sample_store). simpl. tauto.
Defined.

(** X2: marking a medication for one date changes neither the row read for
    another date nor the pending and taken times of that other date. *)
Theorem markMedicationTaken_other_date (s : store) (d d' n : string) :
  d <> d' ->
  fetch_taken (markMedicationTaken s d' n) d = fetch_taken s d
  /\ taken_on (markMedicationTaken s d' n) d = taken_on s d
  /\ forall now med,
       classify (markMedicationTaken s d' n) d now med = classify s d now med.
Proof.
  intros N. pose proof (fetch_mark_other s d d' n N) as E.
  assert (T : taken_on (markMedicationTaken s d' n) d = taken_on s d)
    by (unfold taken_on; now rewrite E).
  repeat split; auto. intros now med. apply classify_taken_on. now rewrite T.
Qed.

(** Witness: a mark for the 6th leaves the 5th as it was. *)
Lemma markMedicationTaken_other_date_witness :
  taken_on (markMedicationTaken sample_store "2024-01-06" "Amlodipine")
    "2024-01-05"
  = taken_on sample_store "2024-01-05".
Proof.
  apply (markMedicationTaken_other_date sample_store "2024-01-05" "2024-01-06").
  discriminate.
Defined.

(** X3: marking a medication whose name has no semicolon does not change
    the pending and taken times of a medication with another name. *)
Theorem markMedicationTaken_other_name (s : store) (d n now : string)
    (med : medication) :
  nosep ";" n = true -> name med <> n ->
  classify (markMedicationTaken s d n) d now med = classify s d now med.
Proof.
  intros Hs Hn. apply classify_taken_on. rewrite taken_on_mark.
  destruct (mem n (taken_on s d)); [reflexivity|].
  unfold reread. rewrite (nosep_split ";" n Hs).
  destruct (taken_on s d) as [|y l].
  - destruct (String.eqb n ""); [reflexivity|]. simpl.
    apply String.eqb_neq in Hn. now rewrite Hn.
  - unfold mem. rewrite existsb_app. simpl.
    apply String.eqb_neq in Hn. rewrite Hn. now rewrite !orb_false_r.
Qed.

(** Witness: marking Metformin leaves the times of Amlodipine as they are. *)
Lemma markMedicationTaken_other_name_witness :
  classify (markMedicationTaken empty_store "2024-01-05" "Metformin")
    "2024-01-05" "12:00" amlodipine
  = classify empty_store "2024-01-05" "12:00" amlodipine.
Proof.
  apply (markMedicationTaken_other_name empty_store "2024-01-05" "Metformin");
    [reflexivity | discriminate].
Defined.

(** ** What holds in every store the program builds *)

Lemma medications_markMedicationTaken (s : store) (d n : string) :
  medications (markMedicationTaken s d n) = medications s.
Proof.
  unfold markMedicationTaken, markMedicationTaken_handler.
  destruct (negb (mem n _)); [|reflexivity].
  now destruct (fetch_taken s d).
Qed.

(** X4: every stored medication has a name, a dosage and a reminder text
    that are not empty, so at least one reminder time is read for it. *)
Theorem reachable_required_fields (s : store) (m : medication) :
  reachable s -> In m (medications s) ->
  name m <> "" /\ dosage m <> ""
  /\ (exists r, reminder_times m = Some r /\ r <> "")
  /\ parse_times (reminder_times m) <> [].
Proof.
  intros R. revert m.
  induction R as [| s f R IH | s today sym sev nts R IH | s today m' R IH A];
    intros m H.
  - contradiction.
  - destruct (addMedication_cases s f) as [[Hn [Hd [Hr _]]] | [_ E]].
    + destruct (addMedication_saved s f Hn Hd Hr) as [E _].
      rewrite E in H. apply in_app_or in H. destruct H as [H | [<- | []]];
        [now apply IH|].
      cbn [name dosage reminder_times]. repeat split; auto.
      * now exists (f_reminder_input f).
      * unfold parse_times. apply truthy_nonempty in Hr. rewrite Hr.
        cbn [negb]. intros N. apply map_eq_nil in N.
        now apply split_not_nil in N.
    + rewrite E in H. now apply IH.
  - now apply IH.
  - rewrite medications_markMedicationTaken in H. now apply IH.
Qed.

(** Witness: the medication of the sample session. *)
Lemma reachable_required_fields_witness :
  name amlodipine <> "" /\ dosage amlodipine <> ""
  /\ (exists r, reminder_times amlodipine = Some r /\ r <> "")
  /\ parse_times (reminder_times amlodipine) <> [].
Proof.
  apply (reachable_required_fields (addMedication empty_store amlodipine_form)).
  - apply reach_add, reach_empty.
  - simpl. now left.
Defined.

Lemma max_of_seq (a n : nat) :
  fold_right Z.max 0%Z (map Z.of_nat (seq a n))
  = match n with
    | 0 => 0%Z
    | S k => Z.of_nat (a + k)
    end.
Proof.
  revert a. induction n as [|n IH]; intros a; [reflexivity|].
  cbn [seq map fold_right]. rewrite IH. destruct n; lia.
Qed.

Lemma next_id_seq (n : nat) :
  next_id (map Z.of_nat (seq 1 n)) = Z.of_nat (S n).
Proof.
  unfold next_id. rewrite max_of_seq. destruct n; lia.
Qed.

Lemma ids_snoc {A : Type} (id : A -> Z) (l : list A) (x : A) :
  map id l = map Z.of_nat (seq 1 (List.length l)) ->
  id x = next_id (map id l) ->
  map id (l ++ [x]) = map Z.of_nat (seq 1 (List.length (l ++ [x]))).
Proof.
  intros E X. rewrite length_app, Nat.add_comm. cbn [List.length plus].
  rewrite seq_S, !map_app, <- E. cbn [map]. rewrite X, E.
  now rewrite next_id_seq.
Qed.

Lemma log_ids_mark (s : store) (d n : string) :
  map log_id (health_log s) = map Z.of_nat (seq 1 (List.length (health_log s))) ->
  map log_id (health_log (markMedicationTaken s d n))
  = map Z.of_nat
      (seq 1 (List.length (health_log (markMedicationTaken s d n)))).
Proof.
  intros E. unfold markMedicationTaken, markMedicationTaken_handler.
  destruct (negb (mem n _)); [|exact E].
  destruct (fetch_taken s d); simpl.
  - rewrite length_map, map_map.
    rewrite <- E. apply map_ext. intros r.
    now destruct (String.eqb (date r) d).
  - now apply ids_snoc.
Qed.

(** X5: in both tables the row ids are 1, 2, 3, ... in the order of the
    rows, so no two rows have the same id. *)
Theorem reachable_ids (s : store) :
  reachable s ->
  map med_id (medications s)
  = map Z.of_nat (seq 1 (List.length (medications s)))
  /\ map log_id (health_log s)
     = map Z.of_nat (seq 1 (List.length (health_log s)))
  /\ NoDup (map med_id (medications s))
  /\ NoDup (map log_id (health_log s)).
Proof.
  intros R.
  assert (I : map med_id (medications s)
              = map Z.of_nat (seq 1 (List.length (medications s)))
              /\ map log_id (health_log s)
                 = map Z.of_nat (seq 1 (List.length (health_log s)))).
  { induction R as [| s f R [IM IL] | s today sym sev nts R [IM IL]
                    | s today m R [IM IL] A].
    - split; reflexivity.
    - rewrite health_log_addMedication. split; [|exact IL].
      destruct (addMedication_cases s f) as [[Hn [Hd [Hr _]]] | [_ E]].
      + destruct (addMedication_saved s f Hn Hd Hr) as [E _]. rewrite E.
        now apply ids_snoc.
      + now rewrite E.
    - split; [exact IM|]. simpl. now apply ids_snoc.
    - rewrite medications_markMedicationTaken. split; [exact IM|].
      now apply log_ids_mark. }
  destruct I as [IM IL]. repeat split; auto.
  - rewrite IM. apply Finite.Injective_map_NoDup; [|apply seq_NoDup].
    intros x y. apply Nat2Z.inj.
  - rewrite IL. apply Finite.Injective_map_NoDup; [|apply seq_NoDup].
    intros x y. apply Nat2Z.inj.
Qed.

(** Witness: the sample session is a run of the program. *)
Lemma reachable_ids_witness :
  map log_id (health_log sample_store) = [1%Z; 2%Z]
  /\ map med_id (medications sample_store) = [1%Z].
Proof.
  assert (R : reachable sample_store).
  { apply (reach_mark _ "2024-01-05"
             (mkMedication 1 "Amlodipine" "5mg" "Daily" "2024-01-01" None 2
                (Some "08:00, 20:00"))).
    - apply reach_symptom, reach_symptom, reach_add, reach_empty.
    - simpl. now left. }
  destruct (reachable_ids sample_store R) as [H1 [H2 _]]. split.
  - exact H2.
  - exact H1.
Defined.

Lemma fetch_taken_In (s : store) (r : log_entry) :
  In r (health_log s) -> fetch_taken s (date r) <> None.
Proof.
  unfold fetch_taken. intros H.
  destruct (find _ (health_log s)) eqn:F; [discriminate|].
  apply (find_none _ _ F) in H. now rewrite String.eqb_refl in H.
Qed.

Lemma fetch_taken_snoc (s : store) (l : list medication) (r' : log_entry)
    (d : string) :
  fetch_taken s d <> None ->
  fetch_taken (mkStore l (health_log s ++ [r'])) d = fetch_taken s d.
Proof.
  unfold fetch_taken. simpl. rewrite find_app_first. intros H.
  destruct (find _ (health_log s)); [reflexivity | now elim H].
Qed.

(** Every row has no taken text or the taken text of the first row of its
    date. *)
Lemma reachable_rows_agree (s : store) :
  reachable s ->
  forall r, In r (health_log s) ->
    taken_medications r = None
    \/ fetch_taken s (date r) = Some (taken_medications r).
Proof.
  intros R.
  induction R as [| s f R IH | s today sym sev nts R IH | s today m R IH A];
    intros r H.
  - contradiction.
  - rewrite health_log_addMedication in H.
    unfold fetch_taken. rewrite health_log_addMedication. now apply IH.
  - unfold recordSymptom in *. simpl in *.
    apply in_app_or in H. destruct H as [H | [<- | []]]; [|now left].
    rewrite fetch_taken_snoc by now apply fetch_taken_In. now apply IH.
  - set (n := name m) in *. clearbody n.
    destruct (mem n (taken_on s today)) eqn:M.
    { apply mem_In in M. unfold markMedicationTaken in *.
      rewrite (mark_present s today n M) in *. now apply IH. }
    pose proof (fetch_mark s today n) as FM. rewrite M in FM.
    apply mem_false in M. unfold markMedicationTaken in H.
    destruct (fetch_taken s today) as [row|] eqn:F.
    + rewrite (mark_absent_row s today n row M F) in H. simpl in H.
      apply in_map_iff in H. destruct H as [r0 [<- H]].
      destruct (String.eqb_spec (date r0) today) as [E|E].
      * right. cbn [date set_taken taken_medications]. now rewrite E.
      * rewrite fetch_mark_other by exact E. now apply IH.
    + rewrite (mark_absent_norow s today n F) in H. simpl in H.
      apply in_app_or in H. destruct H as [H | [<- | []]].
      * assert (E : date r <> today).
        { intros E. apply fetch_taken_In in H. congruence. }
        rewrite fetch_mark_other by exact E. now apply IH.
      * right. cbn [date taken_medications]. rewrite FM.
        unfold taken_on. now rewrite F.
Qed.

(** X6: no mark is lost: a name listed on any row of a date is in the taken
    list that the dashboard reads for that date. *)
Theorem reachable_no_lost_mark (s : store) (r : log_entry) (x : string) :
  reachable s -> In r (health_log s) -> In x (names_on r) ->
  In x (taken_on s (date r)).
Proof.
  intros R H X. unfold names_on in X.
  destruct (reachable_rows_agree s R r H) as [E|E].
  - rewrite E in X. contradiction.
  - unfold taken_on. now rewrite E.
Qed.

(** Witness: the second row of the sample store lists Amlodipine. *)
Lemma reachable_no_lost_mark_witness :
  In "Amlodipine" (taken_on sample_store "2024-01-05").
Proof.
  apply (reachable_no_lost_mark sample_store
           (mkLog 2 "2024-01-05" (Some "Fever") (Some 3%Z) (Some "after lunch")
              (Some "Amlodipine"))).
  - apply (reach_mark _ "2024-01-05"
             (mkMedication 1 "Amlodipine" "5mg" "Daily" "2024-01-01" None 2
                (Some "08:00, 20:00"))).
    + apply reach_symptom, reach_symptom, reach_add, reach_empty.
    + simpl. now left.
  - simpl. tauto.
  - simpl. tauto.
Defined.

(** ** Pending and taken times together *)

Lemma filter_split_perm {A : Type} (f : A -> bool) (l : list A) :
  Permutation (filter (fun x => negb (f x)) l ++ filter f l) l.
Proof.
  induction l as [|x l IH]; simpl; [constructor|].
  destruct (f x); simpl.
  - apply Permutation_sym, Permutation_cons_app, Permutation_sym, IH.
  - now apply perm_skip.
Qed.

(** X7: every reminder time of a medication is shown once, as pending or as
    taken: the two lists together are a rearrangement of the reminder
    times, and their lengths add up to the number of reminder times. *)
Theorem classify_partition (s : store) (today now : string) (med : medication) :
  Permutation
    (fst (classify s today now med) ++ snd (classify s today now med))
    (parse_times (reminder_times med))
  /\ List.length (fst (classify s today now med))
     + List.length (snd (classify s today now med))
     = List.length (parse_times (reminder_times med)).
Proof.
  rewrite classify_filter. cbn [fst snd].
  pose proof (filter_split_perm
                (fun t => (t <? now) && mem (name med) (taken_on s today))
                (parse_times (reminder_times med))) as P.
  split; [exact P|].
  apply Permutation_length in P. now rewrite length_app in P.
Qed.

(** ** Reading reminder times *)

Lemma lstrip_idem (s : string) : lstrip (lstrip s) = lstrip s.
Proof.
  induction s as [|a s IH]; simpl; [reflexivity|].
  destruct (is_space a) eqn:E; [exact IH|]. simpl. now rewrite E.
Qed.

Lemma rstrip_cons (a : ascii) (s : string) :
  rstrip (String a s) =
  match rstrip s with
  | EmptyString => if is_space a then EmptyString else String a EmptyString
  | String b r => String a (String b r)
  end.
Proof. reflexivity. Qed.

Lemma rstrip_idem (s : string) : rstrip (rstrip s) = rstrip s.
Proof.
  induction s as [|a s IH]; [reflexivity|]. rewrite rstrip_cons.
  destruct (rstrip s) as [|b r] eqn:E.
  - destruct (is_space a) eqn:Sa; [reflexivity|].
    rewrite rstrip_cons. simpl. now rewrite Sa.
  - rewrite rstrip_cons. now rewrite IH.
Qed.

Lemma rstrip_lstrip (t : string) :
  rstrip t = t -> rstrip (lstrip t) = lstrip t.
Proof.
  induction t as [|a t IH]; [reflexivity|]. intros H. cbn [lstrip].
  destruct (is_space a) eqn:Sa; [|exact H].
  apply IH. rewrite rstrip_cons in H. rewrite Sa in H.
  destruct (rstrip t); [discriminate | congruence].
Qed.

Lemma strip_idem (s : string) : strip (strip s) = strip s.
Proof.
  unfold strip. rewrite (rstrip_lstrip (rstrip s) (rstrip_idem s)).
  apply lstrip_idem.
Qed.

Lemma nosep_lstrip (c : ascii) (s : string) :
  nosep c s = true -> nosep c (lstrip s) = true.
Proof.
  induction s as [|a s IH]; [reflexivity|]. intros H. cbn [lstrip].
  destruct (is_space a); [|exact H].
  apply IH. simpl in H. now apply andb_prop in H.
Qed.

Lemma nosep_rstrip (c : ascii) (s : string) :
  nosep c s = true -> nosep c (rstrip s) = true.
Proof.
  induction s as [|a s IH]; [reflexivity|]. intros H.
  simpl in H. apply andb_prop in H. destruct H as [Ha Hs].
  rewrite rstrip_cons. specialize (IH Hs).
  destruct (rstrip s) as [|b r].
  - destruct (is_space a); [reflexivity|]. simpl. now rewrite Ha.
  - change (nosep c (String a (String b r)))
      with (negb (Ascii.eqb a c) && nosep c (String b r)).
    now rewrite Ha, IH.
Qed.

Lemma length_split (c : ascii) (s : string) :
  List.length (split c s) = S (count_char c s).
Proof.
  unfold count_char. induction s as [|a s IH]; [reflexivity|].
  cbn [split list_ascii_of_string count_occ].
  destruct (Ascii.eqb_spec a c) as [E|E].
  - destruct (ascii_dec a c); [|congruence]. simpl. now rewrite IH.
  - destruct (ascii_dec a c); [congruence|].
    destruct (split c s) as [|h t] eqn:S; [now apply split_not_nil in S|].
    exact IH.
Qed.

Lemma parse_times_clean (time_str : option string) :
  Forall clean_time (parse_times time_str).
Proof.
  unfold parse_times. destruct (truthy time_str); cbn [negb]; [|constructor].
  destruct time_str as [s|]; [|constructor].
  apply Forall_forall. intros x Hx. apply in_map_iff in Hx.
  destruct Hx as [y [<- Hy]]. split.
  - pose proof (split_nosep "," s) as F. rewrite Forall_forall in F.
    unfold strip. now apply nosep_lstrip, nosep_rstrip, F.
  - apply strip_idem.
Qed.

(** X8: without a text, or with the empty text, no reminder time is read;
    otherwise there is one time more than there are commas, and every time
    read has no comma and no blank at either end. *)
Theorem parse_times_shape (time_str : option string) :
  (truthy time_str = false -> parse_times time_str = [])
  /\ (forall s, time_str = Some s -> s <> "" ->
        List.length (parse_times time_str) = S (count_char "," s))
  /\ Forall clean_time (parse_times time_str).
Proof.
  split; [|split].
  - intros H. unfold parse_times. now rewrite H.
  - intros s -> Hs. unfold parse_times. apply truthy_nonempty in Hs.
    rewrite Hs. cbn [negb]. now rewrite length_map, length_split.
  - apply parse_times_clean.
Qed.

(** Witness: the usual reminder text, with one comma. *)
Lemma parse_times_shape_witness :
  List.length (parse_times (Some "08:00, 20:00")) = 2.
Proof.
  destruct (parse_times_shape (Some "08:00, 20:00")) as [_ [H _]].
  apply (H "08:00, 20:00"); [reflexivity | discriminate].
Defined.

(** X9: a list of times without commas and blanks around them is read back
    from the text the dashboard prints for it, provided that text is not
    empty; and the times read from any text are read again from their
    printed form, provided that form is not empty. *)
Theorem parse_times_printed (l : list string) (time_str : option string) :
  (l <> [] -> join ", " l <> "" -> Forall clean_time l ->
   parse_times (Some (join ", " l)) = l)
  /\ (join ", " (parse_times time_str) <> "" ->
      parse_times (Some (join ", " (parse_times time_str)))
      = parse_times time_str).
Proof.
  assert (E : forall l, l <> [] -> join ", " l <> "" -> Forall clean_time l ->
                        parse_times (Some (join ", " l)) = l).
  { intros l' Hl Hj F. unfold parse_times. apply truthy_nonempty in Hj.
    rewrite Hj. cbn [negb]. apply split_join_times; [exact Hl | exact F]. }
  split; [apply E|].
  intros Hj. apply E; [|exact Hj | apply parse_times_clean].
  intros N. rewrite N in Hj. now apply Hj.
Qed.

(** Witness: three times, printed and read again. *)
Lemma parse_times_printed_witness :
  parse_times (Some (join ", " ["07:30"; "13:00"; "21:15"]))
  = ["07:30"; "13:00"; "21:15"]
  /\ parse_times (Some (join ", " (parse_times (Some " 8:00 ,20:00 "))))
     = parse_times (Some " 8:00 ,20:00 ").
Proof.
  destruct (parse_times_printed ["07:30"; "13:00"; "21:15"]
              (Some " 8:00 ,20:00 ")) as [H1 H2].
  split.
  - apply H1; [discriminate | discriminate | repeat constructor].
  - apply H2. discriminate.
Defined.

(** ** Listings and the report after a write *)

(** X10: the listing of recent entries has as many rows as the table, up to
    the limit; when the table has no more rows than the limit, every row of
    the table is listed. *)
Theorem listRecentHealthLogEntries_length (s : store) (limit : nat) :
  List.length (listRecentHealthLogEntries s limit)
  = Nat.min limit (List.length (health_log s))
  /\ (List.length (health_log s) <= limit ->
      Permutation (listRecentHealthLogEntries s limit)
        (map log_columns (health_log s))).
Proof.
  unfold listRecentHealthLogEntries.
  pose proof (order_by_date_desc_perm (health_log s)) as P.
  pose proof (Permutation_length P) as L.
  split.
  - rewrite length_firstn, length_map. now rewrite <- L.
  - intros H. rewrite firstn_all2 by (rewrite length_map; lia).
    apply Permutation_map, Permutation_sym, P.
Qed.

(** Witness: the two rows of the sample store, with the limit 10. *)
Lemma listRecentHealthLogEntries_length_witness :
  Permutation (listRecentHealthLogEntries sample_store 10)
    (map log_columns (health_log sample_store)).
Proof.
  apply (listRecentHealthLogEntries_length sample_store 10). simpl. lia.
Defined.

Lemma string_ltb_not_leb (x y : string) :
  (x <? y) = true -> (y <=? x) = false.
Proof.
  unfold String.ltb, String.leb. rewrite (String.compare_antisym x y).
  destruct (String.compare y x); simpl; congruence.
Qed.

Lemma filter_none {A : Type} (f : A -> bool) (l : list A) :
  (forall x, In x l -> f x = false) -> filter f l = [].
Proof.
  induction l as [|x l IH]; intros H; simpl; [reflexivity|].
  rewrite (H x) by now left. apply IH. intros y Hy. apply H. now right.
Qed.

(** X11: when the first date of the range is after the last one, no log row
    is selected and the log table of the report has its header row only. *)
Theorem buildReport_inverted_range (s : store) (start stop generated_on : string) :
  (stop <? start) = true ->
  listHealthLogEntriesInRange s start stop = []
  /\ nth_error (buildReport s start stop generated_on) 7
     = Some (Table [[PyStr "Date"; PyStr "Symptom"; PyStr "Severity";
                     PyStr "Notes"]]).
Proof.
  intros H.
  assert (E : listHealthLogEntriesInRange s start stop = []).
  { apply filter_none. intros r _. unfold between.
    destruct (start <=? date r) eqn:A; [|reflexivity].
    destruct (date r <=? stop) eqn:B; [|reflexivity].
    pose proof (string_leb_trans _ _ _ A B) as T.
    apply string_ltb_not_leb in H. congruence. }
  split; [exact E|]. unfold buildReport. rewrite E. reflexivity.
Qed.

(** Witness: a range from the 31st back to the 1st. *)
Lemma buildReport_inverted_range_witness :
  listHealthLogEntriesInRange sample_store "2024-01-31" "2024-01-01" = [].
Proof.
  apply (buildReport_inverted_range sample_store "2024-01-31" "2024-01-01" "").
  reflexivity.
Defined.

(** X12: a saved symptom is in the log table of every report whose range
    holds its date, as a last row with the symptom, the severity and the
    notes, or "-" when the notes were left empty; the table of a report
    whose range does not hold the date is unchanged. *)
Theorem recordSymptom_in_report (s : store) (d sym : string) (sev : Z)
    (nts start stop : string) :
  log_table (listHealthLogEntriesInRange (recordSymptom s d sym sev nts)
               start stop)
  = log_table (listHealthLogEntriesInRange s start stop)
    ++ (if between d start stop
        then [[PyStr d; PyStr sym; PyInt sev;
               PyStr (match nts with
                      | EmptyString => "-"
                      | _ => nts
                      end)]]
        else []).
Proof.
  unfold listHealthLogEntriesInRange, recordSymptom, log_table. simpl.
  rewrite filter_app, map_app. simpl.
  destruct (between d start stop); [|reflexivity].
  destruct nts; reflexivity.
Qed.

Lemma log_row_update (d x : string) (start stop : string) (l : list log_entry) :
  map log_row
    (filter (fun r => between (date r) start stop)
       (map (fun r => if String.eqb (date r) d then set_taken (Some x) r else r)
          l))
  = map log_row (filter (fun r => between (date r) start stop) l).
Proof.
  induction l as [|r l IH]; [reflexivity|]. cbn [map filter].
  destruct (String.eqb (date r) d); cbn [date set_taken];
    destruct (between (date r) start stop); cbn [map]; now rewrite IH.
Qed.

(** X13: marking a medication on a day that has a row changes nothing in
    the log table of a report; on a day without a row it adds, when the
    range holds the day, a last row with the date, no symptom, no severity
    and "-" for the notes. *)
Theorem markMedicationTaken_in_report (s : store) (d n start stop : string) :
  log_table (listHealthLogEntriesInRange (markMedicationTaken s d n) start stop)
  = log_table (listHealthLogEntriesInRange s start stop)
    ++ match fetch_taken s d with
       | Some _ => []
       | None =>
           if between d start stop
           then [[PyStr d; PyNone; PyNone; PyStr "-"]]
           else []
       end.
Proof.
  unfold markMedicationTaken.
  destruct (fetch_taken s d) as [row|] eqn:F.
  - rewrite app_nil_r. destruct (mem n (taken_on s d)) eqn:M.
    + apply mem_In in M. now rewrite (mark_present s d n M).
    + apply mem_false in M. rewrite (mark_absent_row s d n row M F).
      unfold listHealthLogEntriesInRange, log_table. simpl.
      now rewrite log_row_update.
  - rewrite (mark_absent_norow s d n F).
    unfold listHealthLogEntriesInRange, log_table. simpl.
    rewrite filter_app, map_app. simpl.
    destruct (between d start stop); reflexivity.
Qed.

(** ** Adding a medication, then listing *)

Lemma next_id_fresh (ids : list Z) (x : Z) :
  In x ids -> (x < next_id ids)%Z.
Proof.
  unfold next_id. induction ids as [|y ids IH]; simpl; [contradiction|].
  intros [<-|H]; [lia|]. specialize (IH H). lia.
Qed.

(** X14: a medication saved with its required fields gets an id above all
    ids of the table, and it is listed as active on a date, after the
    medications listed before, exactly when the date is between its start
    date and its end date, or not before its start date when it has no end
    date. *)
Theorem addMedication_listed (s : store) (f : med_form) (d : string) :
  f_name f <> "" -> f_dosage f <> "" -> f_reminder_input f <> "" ->
  exists m,
    medications (addMedication s f) = medications s ++ [m]
    /\ name m = f_name f /\ start_date m = f_start_date f
    /\ end_date m = f_end_date f
    /\ (forall m', In m' (medications s) -> (med_id m' < med_id m)%Z)
    /\ listMedicationsActiveOn (addMedication s f) d
       = listMedicationsActiveOn s d
         ++ (if (f_start_date f <=? d)
                && match f_end_date f with
                   | Some e => d <=? e
                   | None => true
                   end
             then [m] else []).
Proof.
  intros Hn Hd Hr. destruct (addMedication_saved s f Hn Hd Hr) as [E _].
  eexists. split; [exact E|]. cbn [name start_date end_date med_id].
  repeat split.
  - intros m' H. apply next_id_fresh. now apply in_map.
  - unfold listMedicationsActiveOn. rewrite E, filter_app. f_equal.
    cbn [filter start_date end_date]. unfold between, coalesce.
    destruct (f_end_date f); [reflexivity|].
    rewrite string_leb_refl. reflexivity.
Qed.

(** Witness: the Amlodipine form, listed on the 5th of January. *)
Lemma addMedication_listed_witness :
  exists m,
    name m = "Amlodipine"
    /\ listMedicationsActiveOn (addMedication empty_store amlodipine_form)
         "2024-01-05" = [m].
Proof.
  destruct (addMedication_listed empty_store amlodipine_form "2024-01-05")
    as [m [_ [N [_ [_ [_ L]]]]]]; try discriminate.
  exists m. split; [exact N | exact L].
Defined.

(** ** Recent entries after a write *)

Lemma order_by_date_desc_latest (l : list log_entry) (r : log_entry) :
  (forall x, In x l -> (date x <? date r) = true) ->
  order_by_date_desc (l ++ [r]) = r :: order_by_date_desc l.
Proof.
  induction l as [|x l IH]; intros H; [reflexivity|].
  cbn [app order_by_date_desc fold_right].
  fold (order_by_date_desc (l ++ [r])). fold (order_by_date_desc l).
  rewrite IH by (intros y Hy; apply H; now right).
  cbn [insert_desc].
  now rewrite (string_ltb_not_leb _ _ (H x (or_introl eq_refl))).
Qed.

(** X15: a symptom saved on a day later than every date of the table is the
    first row of the listing of recent entries, followed by the rows listed
    before. *)
Theorem recordSymptom_listed_first (s : store) (today sym : string) (sev : Z)
    (nts : string) (k : nat) :
  (forall r, In r (health_log s) -> (date r <? today) = true) ->
  listRecentHealthLogEntries (recordSymptom s today sym sev nts) (S k)
  = (today, Some sym, Some sev, Some nts) :: listRecentHealthLogEntries s k.
Proof.
  intros H. unfold listRecentHealthLogEntries, recordSymptom. simpl run.
  cbn [health_log]. rewrite order_by_date_desc_latest by exact H.
  reflexivity.
Qed.

(** Witness: a symptom of the 6th after the rows of the 5th. *)
Lemma recordSymptom_listed_first_witness :
  listRecentHealthLogEntries
    (recordSymptom sample_store "2024-01-06" "Cough" 4 "") 10
  = ("2024-01-06", Some "Cough", Some 4%Z, Some "")
      :: listRecentHealthLogEntries sample_store 9.
Proof.
  apply (recordSymptom_listed_first sample_store "2024-01-06" "Cough" 4 "" 9).
  intros r H. simpl in H. destruct H as [<- | [<- | []]]; reflexivity.
Defined.

Lemma insert_desc_map (g : log_entry -> log_entry) (r : log_entry)
    (l : list log_entry) :
  (forall x, date (g x) = date x) ->
  insert_desc (g r) (map g l) = map g (insert_desc r l).
Proof.
  intros G. induction l as [|x l IH]; [reflexivity|].
  cbn [map insert_desc]. rewrite !G.
  destruct (date x <=? date r); [reflexivity|]. cbn [map]. now rewrite IH.
Qed.

Lemma order_by_date_desc_map (g : log_entry -> log_entry) (l : list log_entry) :
  (forall x, date (g x) = date x) ->
  order_by_date_desc (map g l) = map g (order_by_date_desc l).
Proof.
  intros G. induction l as [|x l IH]; [reflexivity|].
  cbn [map order_by_date_desc fold_right].
  fold (order_by_date_desc (map g l)). fold (order_by_date_desc l).
  rewrite IH. now apply insert_desc_map.
Qed.

(** X16: marking a medication on a day that has a row does not change the
    listing of recent entries. *)
Theorem markMedicationTaken_recent_unchanged (s : store) (d n : string)
    (limit : nat) :
  fetch_taken s d <> None ->
  listRecentHealthLogEntries (markMedicationTaken s d n) limit
  = listRecentHealthLogEntries s limit.
Proof.
  intros F. unfold markMedicationTaken.
  destruct (mem n (taken_on s d)) eqn:M.
  - apply mem_In in M. now rewrite (mark_present s d n M).
  - apply mem_false in M. destruct (fetch_taken s d) as [row|] eqn:R;
      [|congruence].
    rewrite (mark_absent_row s d n row M R).
    unfold listRecentHealthLogEntries. simpl.
    rewrite order_by_date_desc_map
      by (intros x; now destruct (String.eqb (date x) d)).
    rewrite map_map. f_equal. apply map_ext. intros r.
    now destruct (String.eqb (date r) d).
Qed.

(** Witness: Metformin marked on the day of the two sample rows. *)
Lemma markMedicationTaken_recent_unchanged_witness :
  listRecentHealthLogEntries
    (markMedicationTaken sample_store "2024-01-05" "Metformin") 10
  = listRecentHealthLogEntries sample_store 10.
Proof.
  apply (markMedicationTaken_recent_unchanged sample_store "2024-01-05").
  discriminate.
Defined.

(** ** Days logged on the Reports page *)

Lemma join_written_nonempty (l : list string) (n : string) :
  n <> "" -> join ";" (l ++ [n]) <> "".
Proof.
  intros Hn. destruct l as [|x l]; [exact Hn|].
  rewrite join_snoc by discriminate.
  destruct (join ";" (x :: l)); discriminate.
Qed.

Lemma adherence_update (d x : string) (l : list log_entry) :
  truthy (Some x) = true ->
  List.length
    (filter (fun r => truthy (taken_medications r))
       (map (fun r => if String.eqb (date r) d then set_taken (Some x) r else r)
          l))
  = List.length
      (filter (fun r => negb (String.eqb (date r) d)
                        && truthy (taken_medications r)) l)
    + List.length (filter (fun r => String.eqb (date r) d) l).
Proof.
  intros T. induction l as [|r l IH]; [reflexivity|]. cbn [map filter].
  destruct (String.eqb (date r) d); cbn [negb andb].
  - cbn [taken_medications set_taken]. rewrite T. cbn [List.length].
    rewrite IH. lia.
  - destruct (truthy (taken_medications r)); cbn [List.length]; rewrite IH; lia.
Qed.

Lemma adherence_norow (d : string) (l : list log_entry) :
  find (fun r => String.eqb (date r) d) l = None ->
  filter (fun r => String.eqb (date r) d) l = []
  /\ filter (fun r => truthy (taken_medications r)) l
     = filter (fun r => negb (String.eqb (date r) d)
                        && truthy (taken_medications r)) l.
Proof.
  intros F. split.
  - apply filter_none. intros r H. exact (find_none _ _ F r H).
  - apply filter_ext_in. intros r H. now rewrite (find_none _ _ F r H).
Qed.

(** X17: after a medication with a non-empty name is newly marked for a
    day, the number shown as "days logged" counts every row of that day,
    and one row when the day had none, besides the rows of other days with
    a taken text. *)
Theorem adherence_after_mark (s : store) (d n : string) :
  n <> "" -> ~ In n (taken_on s d) ->
  let others :=
    List.length
      (filter (fun r => negb (String.eqb (date r) d)
                        && truthy (taken_medications r)) (health_log s)) in
  let of_day :=
    List.length (filter (fun r => String.eqb (date r) d) (health_log s)) in
  List.length (adherence_rows (markMedicationTaken s d n))
  = others + Nat.max 1 of_day
  /\ exists points,
       reports_page (markMedicationTaken s d n)
       = ReportData points (Some (others + Nat.max 1 of_day)).
Proof.
  intros Hn M others of_day.
  assert (E : List.length (adherence_rows (markMedicationTaken s d n))
              = others + Nat.max 1 of_day).
  { unfold adherence_rows, markMedicationTaken. rewrite length_map.
    destruct (fetch_taken s d) as [row|] eqn:F.
    - rewrite (mark_absent_row s d n row M F). simpl.
      rewrite adherence_update
        by (apply truthy_nonempty, join_written_nonempty, Hn).
      fold others of_day. unfold fetch_taken in F.
      destruct (find _ (health_log s)) as [r|] eqn:Fd; [|discriminate].
      assert (H : In r (filter (fun r => String.eqb (date r) d) (health_log s))).
      { apply filter_In. split; [exact (proj1 (find_some _ _ Fd))
                                | exact (proj2 (find_some _ _ Fd))]. }
      change (others + of_day = others + Nat.max 1 of_day).
      assert (1 <= of_day); [|lia].
      unfold of_day. revert H.
      generalize (filter (fun r => String.eqb (date r) d) (health_log s)).
      intros [|x l] H; [contradiction | simpl; lia].
    - rewrite (mark_absent_norow s d n F). simpl.
      unfold fetch_taken in F.
      destruct (find _ (health_log s)) eqn:Fd; [discriminate|].
      destruct (adherence_norow d _ Fd) as [Z1 Z2].
      rewrite filter_app, length_app. cbn [filter taken_medications].
      apply truthy_nonempty in Hn. rewrite Hn.
      subst others of_day. rewrite Z1, <- Z2. simpl. lia. }
  split; [exact E|].
  unfold reports_page.
  destruct (adherence_rows (markMedicationTaken s d n)) as [|a rows] eqn:A.
  { cbn [List.length] in E. lia. }
  destruct (seriesForReport (markMedicationTaken s d n)) as [|p pts] eqn:P.
  - exfalso. unfold seriesForReport in P. apply map_eq_nil in P.
    unfold adherence_rows in A. rewrite P in A. discriminate.
  - exists (p :: pts). now rewrite <- E.
Qed.

(** Witness: after two symptoms of one day, one mark shows two days. *)
Lemma adherence_after_mark_witness :
  List.length
    (adherence_rows (markMedicationTaken two_symptoms "2024-01-05" "Amlodipine"))
  = 0 + Nat.max 1 2.
Proof.
  apply (adherence_after_mark two_symptoms "2024-01-05" "Amlodipine").
  - discriminate.
  - simpl. tauto.
Defined.

(** ** More on marking, saving and the dashboard *)

(** X18: a newly marked non-empty name without a semicolon is added once,
    at the end of the taken list of the date, and a list without repeated
    names stays without repeated names. *)
Theorem markMedicationTaken_appends (s : store) (d n : string) :
  nosep ";" n = true -> n <> "" -> ~ In n (taken_on s d) ->
  taken_on (markMedicationTaken s d n) d = taken_on s d ++ [n]
  /\ (NoDup (taken_on s d) -> NoDup (taken_on (markMedicationTaken s d n) d)).
Proof.
  intros Hs Hn M.
  assert (E : taken_on (markMedicationTaken s d n) d = taken_on s d ++ [n]).
  { rewrite taken_on_mark. apply mem_false in M. rewrite M.
    unfold reread. rewrite (nosep_split ";" n Hs).
    apply String.eqb_neq in Hn. rewrite Hn.
    now destruct (taken_on s d). }
  split; [exact E|]. intros N. rewrite E.
  apply NoDup_app; [exact N | repeat constructor; auto |].
  intros x Hx [<- | []]. contradiction.
Qed.

(** Witness: Metformin marked after Amlodipine. *)
Lemma markMedicationTaken_appends_witness :
  taken_on (markMedicationTaken sample_store "2024-01-05" "Metformin")
    "2024-01-05"
  = taken_on sample_store "2024-01-05" ++ ["Metformin"].
Proof.
  apply (markMedicationTaken_appends sample_store "2024-01-05" "Metformin").
  - reflexivity.
  - discriminate.
  - simpl. intros [H | []]. discriminate H.
Defined.

(** X19: saving a symptom adds one row at the end of the health log and
    changes nothing else: the rows before it, the medications, the taken
    list of every date and the pending and taken times of every medication
    are as before. *)
Theorem recordSymptom_frame (s : store) (today sym : string) (sev : Z)
    (nts : string) :
  (exists r,
     health_log (recordSymptom s today sym sev nts) = health_log s ++ [r]
     /\ log_columns r = (today, Some sym, Some sev, Some nts)
     /\ taken_medications r = None)
  /\ medications (recordSymptom s today sym sev nts) = medications s
  /\ (forall d, taken_on (recordSymptom s today sym sev nts) d = taken_on s d)
  /\ (forall d now med,
        classify (recordSymptom s today sym sev nts) d now med
        = classify s d now med).
Proof.
  split; [|split; [|split]].
  - eexists. split; [reflexivity|]. split; reflexivity.
  - reflexivity.
  - intros d. apply taken_on_recordSymptom.
  - intros d now med. apply classify_taken_on.
    now rewrite taken_on_recordSymptom.
Qed.

(** X20: a submission is refused exactly when the name, the dosage or the
    reminder text is empty, and then nothing is written; otherwise one
    medication is added at the end of the table and the health log is
    untouched. *)
Theorem addMedication_validation (s : store) (f : med_form) :
  (f_name f = "" \/ f_dosage f = "" \/ f_reminder_input f = "" ->
   addMedication_handler f = ([], [st_error "Please fill all required fields."])
   /\ addMedication s f = s)
  /\ (f_name f <> "" -> f_dosage f <> "" -> f_reminder_input f <> "" ->
      List.length (medications (addMedication s f))
      = S (List.length (medications s))
      /\ firstn (List.length (medications s)) (medications (addMedication s f))
         = medications s
      /\ health_log (addMedication s f) = health_log s
      /\ snd (addMedication_handler f)
         = [st_success ("Medication '" ++ f_name f ++ "' added successfully!");
            st_balloons]).
Proof.
  split.
  - intros H. unfold addMedication, addMedication_handler.
    destruct (f_name f); [now split|].
    destruct (f_dosage f); [now split|].
    destruct (f_reminder_input f); [now split|].
    destruct H as [H | [H | H]]; discriminate.
  - intros Hn Hd Hr. destruct (addMedication_saved s f Hn Hd Hr) as [E L].
    rewrite E, length_app, firstn_app, Nat.sub_diag, firstn_all.
    cbn [List.length firstn]. rewrite app_nil_r, Nat.add_comm.
    repeat split; auto.
    unfold addMedication_handler. apply truthy_nonempty in Hn, Hd, Hr.
    now rewrite Hn, Hd, Hr.
Qed.

(** Witness: a form without dosage, and the Amlodipine form. *)
Lemma addMedication_validation_witness :
  addMedication two_symptoms
    (mkForm "Amlodipine" "" "Daily" 2 "08:00" "2024-01-01" None)
  = two_symptoms
  /\ List.length (medications (addMedication two_symptoms amlodipine_form)) = 1.
Proof.
  split.
  - apply (addMedication_validation two_symptoms
             (mkForm "Amlodipine" "" "Daily" 2 "08:00" "2024-01-01" None)).
    right. now left.
  - apply (addMedication_validation two_symptoms amlodipine_form);
      discriminate.
Defined.

(** X21: a medication whose end date is before its start date is accepted
    by the form but is never listed as active, on any date. *)
Theorem listMedicationsActiveOn_never (s : store) (m : medication)
    (e d : string) :
  end_date m = Some e -> (e <? start_date m) = true ->
  ~ In m (listMedicationsActiveOn s d).
Proof.
  intros E H I. unfold listMedicationsActiveOn in I.
  apply filter_In in I. destruct I as [_ B].
  unfold between, coalesce in B. rewrite E in B.
  apply andb_prop in B. destruct B as [B1 B2].
  pose proof (string_leb_trans _ _ _ B1 B2) as T.
  apply string_ltb_not_leb in H. congruence.
Qed.

(** Witness: a medication from the 10th to the 1st, on the 5th. *)
Lemma listMedicationsActiveOn_never_witness :
  ~ In (mkMedication 1 "Amlodipine" "5mg" "Daily" "2024-01-10"
          (Some "2024-01-01") 2 (Some "08:00"))
       (listMedicationsActiveOn
          (addMedication empty_store
             (mkForm "Amlodipine" "5mg" "Daily" 2 "08:00" "2024-01-10"
                (Some "2024-01-01")))
          "2024-01-05").
Proof.
  apply (listMedicationsActiveOn_never _ _ "2024-01-01"); reflexivity.
Defined.
